(** * mt-server connectors: the MT4 connector, its reconnect decorator and
      the connector factory

    A shallow embedding of [connectors/mt4_connector.py],
    [connectors/base_connector.py] and [connectors/connector_factory.py].

    Python computations are functions from a state to a new state and an
    outcome that is either a raised exception or a returned value.  Only
    exceptions deriving from [Exception] are modelled (the handlers of the
    source are [except Exception] and one bare [except]); strings are ASCII,
    so [str.lower] is the ASCII lower-casing. *)

From Stdlib Require Import List String Ascii ZArith Bool Arith Lia.
Import ListNotations.
Open Scope string_scope.

(** ** Strings *)

(** [c.lower()] on one ASCII character. *)
Definition lower_ascii (c : ascii) : ascii :=
  let n := nat_of_ascii c in
  if ((65 <=? n)%nat && (n <=? 90)%nat)%bool then ascii_of_nat (n + 32) else c.

(** [s.lower()] *)
Fixpoint lower (s : string) : string :=
  match s with
  | EmptyString => EmptyString
  | String c s' => String (lower_ascii c) (lower s')
  end.

(** [needle in hay] *)
Fixpoint contains (needle hay : string) : bool :=
  if prefix needle hay then true
  else match hay with
       | EmptyString => false
       | String _ hay' => contains needle hay'
       end.

(** [sep.join(l)] *)
Definition join (sep : string) (l : list string) : string := concat sep l.

(** ** Exceptions *)

(** The exception classes the code names, [OtherException] standing for
    any other subclass of [Exception] a driver may raise.
    [ConnectionError] and [MT4Error] are the classes of [utils.exceptions]. *)
Inductive ExcClass : Type :=
| ConnectionError
| MT4Error
| ValueError
| TypeError
| AttributeError
| ImportError
| OtherException (name : string).

(** An exception object: its class and [str(e)]. *)
Record exn : Type := Exc { exc_class : ExcClass; exc_msg : string }.

(** [isinstance(e, ConnectionError)] *)
Definition isinstance_ConnectionError (e : exn) : bool :=
  match exc_class e with
  | ConnectionError => true
  | _ => false
  end.

(** ** Computations that read and write a state and may raise *)

Definition Py (S A : Type) : Type := S -> S * (exn + A).

Definition ret {S A : Type} (a : A) : Py S A := fun s => (s, inr a).

Definition raise {S A : Type} (e : exn) : Py S A := fun s => (s, inl e).

Definition bind {S A B : Type} (m : Py S A) (k : A -> Py S B) : Py S B :=
  fun s =>
    match m s with
    | (s', inr a) => k a s'
    | (s', inl e) => (s', inl e)
    end.

(** [try: m  except Exception as e: h e] *)
Definition try_except {S A : Type} (m : Py S A) (h : exn -> Py S A) : Py S A :=
  fun s =>
    match m s with
    | (s', inl e) => h e s'
    | r => r
    end.

(** A statement that only changes the state. *)
Definition modify {S : Type} (f : S -> S) : Py S unit := fun s => (f s, inr tt).

Definition get {S : Type} : Py S S := fun s => (s, inr s).

Declare Scope py_scope.
Delimit Scope py_scope with py.
Notation "x <- m ;; k" := (bind m (fun x => k))
  (at level 100, m at next level, right associativity) : py_scope.
Notation "m ;; k" := (bind m (fun _ => k))
  (at level 100, right associativity) : py_scope.
Open Scope py_scope.

(** The outcome and the final state of a run. *)
Definition outcome {S A : Type} (r : S * (exn + A)) : exn + A := snd r.
Definition final {S A : Type} (r : S * (exn + A)) : S := fst r.

(** [m] returns a value from every state. *)
Definition never_raises {S A : Type} (m : Py S A) : Prop :=
  forall s, exists s' a, m s = (s', inr a).

(** ** Logging *)

Inductive Level : Type := INFO | WARNING | ERROR.

(** ** The reconnect decorator, [auto_reconnect_mt4] *)

Section AutoReconnect.
Context {S A : Type}.

(** [self.is_connected], [self.connect] and [self.logger.<level>(msg)] of
    the object the decorated method is called on. *)
Variable is_connected : Py S bool.
Variable connect : Py S bool.
Variable logger : Level -> string -> S -> S.

(** [func.__name__] and [func(self, *args, **kwargs)]. *)
Variable func_name : string.
Variable func : Py S A.

(** The messages the decorator logs and raises with. *)
Definition msg_before : string :=
  "MT4 not connected before " ++ func_name ++ ", attempting to reconnect...".
Definition msg_lost : string :=
  "MT4 connection lost during " ++ func_name ++ ", attempting to reconnect...".
Definition msg_retrying : string :=
  "MT4 reconnection successful, retrying " ++ func_name.
Definition msg_failed : string :=
  "MT4 reconnection failed for " ++ func_name.
Definition err_before : exn :=
  Exc ConnectionError ("MT4 connection failed before " ++ func_name).
Definition err_during (e : exn) : exn :=
  Exc ConnectionError
      ("MT4 reconnection failed during " ++ func_name ++ ": " ++ exc_msg e).

(** The connection check before the first attempt. *)
Definition pre_check : Py S unit :=
  c <- is_connected ;;
  if negb c then
    modify (logger WARNING msg_before) ;;
    ok <- connect ;;
    if negb ok then raise err_before else ret tt
  else ret tt.

(** The condition of the handler, [c] being what [self.is_connected()]
    returned there. *)
Definition connection_related (c : bool) (e : exn) : bool :=
  let error_str := lower (exc_msg e) in
  negb c
  || contains "not connected" error_str
  || contains "connection" error_str
  || isinstance_ConnectionError e.

(** The [except Exception as e] branch. *)
Definition on_exception (e : exn) : Py S A :=
  c <- is_connected ;;
  if connection_related c e then
    modify (logger WARNING msg_lost) ;;
    ok <- connect ;;
    if ok then
      modify (logger INFO msg_retrying) ;;
      func
    else
      modify (logger ERROR msg_failed) ;;
      raise (err_during e)
  else raise e.

(** [wrapper(self, *args, **kwargs)] *)
Definition auto_reconnect_mt4 : Py S A :=
  try_except (pre_check ;; func) on_exception.

End AutoReconnect.

Arguments connection_related c e : simpl never.

(** ** Counting the calls the decorator makes *)

(** The calls of interest: [self.is_connected()], [self.connect()] and
    [func(self, ...)]. *)
Inductive Event : Type := EvIsConnected | EvConnect | EvFunc.

Definition Event_eq_dec (a b : Event) : {a = b} + {a <> b}.
Proof. decide equality. Defined.

Section Traced.
Context {S : Type}.

(** [m], recording beside the state that it was called. *)
Definition traced {B : Type} (ev : Event) (m : Py S B)
  : Py (S * list Event) B :=
  fun st =>
    match m (fst st) with
    | (s', r) => ((s', (snd st ++ [ev])%list), r)
    end.

(** The logger leaves the record of calls alone. *)
Definition lift_logger (logger : Level -> string -> S -> S)
  : Level -> string -> S * list Event -> S * list Event :=
  fun lvl msg st => (logger lvl msg (fst st), snd st).

Context {A : Type}.
Variable is_connected : Py S bool.
Variable connect : Py S bool.
Variable logger : Level -> string -> S -> S.
Variable func_name : string.
Variable func : Py S A.

(** The decorator run on the recording versions of the three calls. *)
Definition auto_reconnect_traced : Py (S * list Event) A :=
  auto_reconnect_mt4 (traced EvIsConnected is_connected)
                     (traced EvConnect connect)
                     (lift_logger logger) func_name (traced EvFunc func).

Definition pre_check_traced : Py (S * list Event) unit :=
  pre_check (traced EvIsConnected is_connected) (traced EvConnect connect)
            (lift_logger logger) func_name.

(** The calls one decorated call makes from [s], in order. *)
Definition trace_of (s : S) : list Event :=
  snd (fst (auto_reconnect_traced (s, []))).

(** The calls of the connection check alone. *)
Definition pre_check_trace (s : S) : list Event :=
  snd (fst (pre_check_traced (s, []))).

Definition calls (ev : Event) (tr : list Event) : nat :=
  count_occ Event_eq_dec tr ev.

End Traced.

(** ** Python values the connector handles *)

(** Values read from the configuration and from the driver's records.
    [VOther] is any other object (a float, a datetime, ...), given by its
    [str()], its truth value and whether it compares equal to [0]. *)
Inductive Value : Type :=
| VNone
| VBool (b : bool)
| VInt (n : Z)
| VStr (s : string)
| VOther (repr : string) (truth : bool) (is_zero : bool).

(** [bool(v)] *)
Definition truthy (v : Value) : bool :=
  match v with
  | VNone => false
  | VBool b => b
  | VInt n => negb (n =? 0)%Z
  | VStr s => negb (s =? "")%string
  | VOther _ t _ => t
  end.

(** [v == 0] *)
Definition eq_zero (v : Value) : bool :=
  match v with
  | VNone => false
  | VBool b => negb b
  | VInt n => (n =? 0)%Z
  | VStr _ => false
  | VOther _ _ z => z
  end.

Definition digit_of (n : nat) : ascii := ascii_of_nat (48 + n).

(** Decimal digits of a natural number, most significant first. *)
Fixpoint digits (fuel n : nat) (acc : string) : string :=
  match fuel with
  | O => acc
  | Datatypes.S fuel' =>
      let acc' := String (digit_of (n mod 10)) acc in
      if (n / 10 =? 0)%nat then acc' else digits fuel' (n / 10) acc'
  end.

Definition str_of_Z (n : Z) : string :=
  let a := Z.to_nat (Z.abs n) in
  let d := digits (Datatypes.S a) a "" in
  if (n <? 0)%Z then "-" ++ d else d.

(** [str(v)], what an f-string inserts. *)
Definition str_of (v : Value) : string :=
  match v with
  | VNone => "None"
  | VBool true => "True"
  | VBool false => "False"
  | VInt n => str_of_Z n
  | VStr s => s
  | VOther r _ _ => r
  end.

(** A dictionary with string keys, in insertion order. *)
Definition Dict (V : Type) : Type := list (string * V).

(** [d.get(k)] *)
Fixpoint dict_lookup {V : Type} (d : Dict V) (k : string) : option V :=
  match d with
  | [] => None
  | (k', v) :: d' => if (k' =? k)%string then Some v else dict_lookup d' k
  end.

(** [d.get(k, default)] *)
Definition dict_get {V : Type} (d : Dict V) (k : string) (default : V) : V :=
  match dict_lookup d k with
  | Some v => v
  | None => default
  end.

(** [k in d] *)
Definition dict_mem {V : Type} (d : Dict V) (k : string) : bool :=
  match dict_lookup d k with
  | Some _ => true
  | None => false
  end.

(** [d[k] = v]: an existing key keeps its place, a new one goes last. *)
Fixpoint dict_set {V : Type} (d : Dict V) (k : string) (v : V) : Dict V :=
  match d with
  | [] => [(k, v)]
  | (k', v') :: d' =>
      if (k' =? k)%string then (k', v) :: d' else (k', v') :: dict_set d' k v
  end.

(** [list(d.keys())] *)
Definition dict_keys {V : Type} (d : Dict V) : list string := map fst d.

(** A record returned by the driver: reading an attribute gives a value or
    raises (an [AttributeError] for a missing one). *)
Definition Obj : Type := string -> exn + Value.

(** [o.name] *)
Definition getattr {S : Type} (o : Obj) (name : string) : Py S Value :=
  fun s => (s, o name).

(** [for x in l: result.append(f x)] *)
Fixpoint for_each {S A B : Type} (f : A -> Py S B) (l : list A) : Py S (list B) :=
  match l with
  | [] => ret []
  | x :: l' => y <- f x ;; ys <- for_each f l' ;; ret (y :: ys)
  end.

(** ** The driver library *)

(** The [MetaTrader4] module the connector imports: each function acts on
    the state [D] of the terminal behind it and may raise.  [initialize]
    gives the truth value of what the library returned; a query gives
    [None] where the library returned [None]. *)
Module MetaTrader4.
Record lib (D : Type) : Type := Lib {
  initialize : option Value -> Value -> Py D bool;
  shutdown : Py D unit;
  account_info : Py D (option Obj);
  symbol_info : string -> Py D (option Obj);
  positions_get : option string -> Py D (option (list Obj));
  orders_get : option string -> Py D (option (list Obj));
  symbols_get : Py D (option (list Obj));
  symbol_info_tick : Value -> Py D (option Obj)
}.
Arguments Lib {D}.
Arguments initialize {D}.
Arguments shutdown {D}.
Arguments account_info {D}.
Arguments symbol_info {D}.
Arguments positions_get {D}.
Arguments orders_get {D}.
Arguments symbols_get {D}.
Arguments symbol_info_tick {D}.
End MetaTrader4.

(** ** The connector object *)

(** The fields [BaseConnector.__init__] and [MT4Connector.__init__] set,
    with the records sent to [self.logger] and the state of the terminal. *)
Record MT4Connector (D : Type) : Type := Self {
  config : Dict Value;
  connected : bool;
  account_info : option Obj;
  logger : list (Level * string);
  mt4_lib : option (MetaTrader4.lib D);
  terminal : D
}.
Arguments Self {D}.
Arguments config {D}.
Arguments connected {D}.
Arguments account_info {D}.
Arguments logger {D}.
Arguments mt4_lib {D}.
Arguments terminal {D}.

Section MT4.
Context {D : Type}.

(** [datetime.fromtimestamp] of Python's library. *)
Variable fromtimestamp : Value -> exn + Value.

#[local] Abbreviation self := (MT4Connector D).

Definition set_connected (b : bool) (s : self) : self :=
  Self (config s) b (account_info s) (logger s) (mt4_lib s) (terminal s).

Definition set_account_info (a : option Obj) (s : self) : self :=
  Self (config s) (connected s) a (logger s) (mt4_lib s) (terminal s).

Definition set_terminal (d : D) (s : self) : self :=
  Self (config s) (connected s) (account_info s) (logger s) (mt4_lib s) d.

(** [self.logger.<level>(msg)] *)
Definition log (lvl : Level) (msg : string) (s : self) : self :=
  Self (config s) (connected s) (account_info s) (logger s ++ [(lvl, msg)])
       (mt4_lib s) (terminal s).

(** Modelled from the spec: [utils.logger.log_error_with_context] is not
    under src/; it sends the failure and its context to the logging sink. *)
Definition log_error_with_context (e : exn) (context : string) : Py self unit :=
  modify (log ERROR (context ++ ": " ++ exc_msg e)).

(** A call of a library function on the terminal. *)
Definition call {A : Type} (f : Py D A) : Py self A :=
  fun s =>
    match f (terminal s) with
    | (d', r) => (set_terminal d' s, r)
    end.

(** [self.mt4_lib.<f>(...)]; on [None] the attribute access raises. *)
Definition lib_call {A : Type} (name : string)
    (f : MetaTrader4.lib D -> Py D A) : Py self A :=
  s <- get ;;
  match mt4_lib s with
  | Some l => call (f l)
  | None =>
      raise (Exc AttributeError
               ("'NoneType' object has no attribute '" ++ name ++ "'"))
  end.

Definition set_mt4_lib (l : option (MetaTrader4.lib D)) (s : self) : self :=
  Self (config s) (connected s) (account_info s) (logger s) l (terminal s).

(** [MT4Connector._initialize_mt4_library], [import MetaTrader4] giving
    the module or raising. *)
Definition _initialize_mt4_library (import : exn + MetaTrader4.lib D)
  : Py self unit :=
  match import with
  | inr mt4 =>
      modify (set_mt4_lib (Some mt4)) ;;
      modify (log INFO "MT4 library loaded successfully")
  | inl e =>
      match exc_class e with
      | ImportError =>
          modify (log ERROR
                    "MetaTrader4 library not found. Please install it with: pip install MetaTrader4") ;;
          raise (Exc MT4Error "MetaTrader4 library not available")
      | _ =>
          modify (log ERROR ("Failed to initialize MT4 library: " ++ exc_msg e)) ;;
          raise (Exc MT4Error ("MT4 library initialization failed: " ++ exc_msg e))
      end
  end.

(** [MT4Connector.__init__], on top of [BaseConnector.__init__]: the new
    object, or the error that ends the construction. *)
Definition __init__ (import : exn + MetaTrader4.lib D) (world : D)
    (config : Dict Value) : exn + self :=
  match _initialize_mt4_library import (Self config false None [] None world) with
  | (s, inr _) => inr s
  | (_, inl e) => inl e
  end.

(** [MT4Connector.connect] *)
Definition connect : Py self bool :=
  try_except
    (s <- get ;;
     match mt4_lib s with
     | None => raise (Exc MT4Error "MT4 library not initialized")
     | Some l =>
         let terminal_path := dict_get (config s) "terminal_path" (VStr "") in
         let bridge_port := dict_get (config s) "bridge_port" (VInt 7788) in
         modify (log INFO ("Connecting to MT4 with bridge port: "
                           ++ str_of bridge_port)) ;;
         (if truthy terminal_path then
            ok <- call (MetaTrader4.initialize l (Some terminal_path) bridge_port) ;;
            if negb ok then
              raise (Exc MT4Error ("Failed to initialize MT4 with path: "
                                   ++ str_of terminal_path))
            else ret tt
          else
            ok <- call (MetaTrader4.initialize l None bridge_port) ;;
            if negb ok then raise (Exc MT4Error "Failed to initialize MT4")
            else ret tt) ;;
         a <- call (MetaTrader4.account_info l) ;;
         modify (set_account_info a) ;;
         match a with
         | None =>
             raise (Exc MT4Error
                      "Failed to get account information. Please ensure MT4 is running and logged in.")
         | Some o =>
             modify (set_connected true) ;;
             login <- getattr o "login" ;;
             server <- getattr o "server" ;;
             modify (log INFO ("MT4 connected successfully - Account: "
                               ++ str_of login ++ ", Server: " ++ str_of server)) ;;
             name <- getattr o "name" ;;
             balance <- getattr o "balance" ;;
             currency <- getattr o "currency" ;;
             modify (log INFO ("MT4 Account: " ++ str_of name ++ " - Balance: "
                               ++ str_of balance ++ " " ++ str_of currency)) ;;
             ret true
         end
     end)
    (fun e =>
       modify (set_connected false) ;;
       log_error_with_context e "MT4 connection failed" ;;
       ret false).

(** [MT4Connector.disconnect] *)
Definition disconnect : Py self unit :=
  try_except
    (s <- get ;;
     match connected s, mt4_lib s with
     | true, Some l =>
         call (MetaTrader4.shutdown l) ;;
         modify (set_connected false) ;;
         modify (log INFO "MT4 disconnected successfully")
     | _, _ => ret tt
     end)
    (fun e => log_error_with_context e "MT4 disconnection error").

(** [MT4Connector.is_connected] *)
Definition is_connected : Py self bool :=
  s <- get ;;
  match connected s, mt4_lib s with
  | true, Some l =>
      try_except
        (a <- call (MetaTrader4.account_info l) ;;
         ret (match a with Some _ => true | None => false end))
        (fun _ => modify (set_connected false) ;; ret false)
  | _, _ => ret false
  end.

(** The fields of a driver record copied into a dictionary, in order. *)
Definition fields (o : Obj) (names : list (string * string))
  : Py self (Dict Value) :=
  for_each (fun kn => v <- getattr o (snd kn) ;; ret (fst kn, v)) names.

Definition same (names : list string) : list (string * string) :=
  map (fun n => (n, n)) names.

Definition not_connected : exn := Exc ConnectionError "Not connected to MT4".

(** The body of [get_account_info], under the decorator. *)
Definition get_account_info_body : Py self (option (Dict Value)) :=
  try_except
    (c <- is_connected ;;
     if negb c then raise not_connected
     else
       a <- lib_call "account_info" MetaTrader4.account_info ;;
       match a with
       | None => ret None
       | Some o =>
           d <- fields o
                  [("login", "login"); ("name", "name"); ("server", "server");
                   ("currency", "currency"); ("balance", "balance");
                   ("equity", "equity"); ("margin", "margin");
                   ("free_margin", "margin_free");
                   ("margin_level", "margin_level"); ("profit", "profit");
                   ("company", "company"); ("trade_allowed", "trade_allowed");
                   ("trade_expert", "trade_expert"); ("leverage", "leverage")] ;;
           ret (Some d)
       end)
    (fun e =>
       log_error_with_context e "Failed to get MT4 account info" ;; ret None).

(** The body of [get_symbol_info]. *)
Definition get_symbol_info_body (symbol : string)
  : Py self (option (Dict Value)) :=
  try_except
    (c <- is_connected ;;
     if negb c then raise not_connected
     else
       a <- lib_call "symbol_info" (fun l => MetaTrader4.symbol_info l symbol) ;;
       match a with
       | None => ret None
       | Some o =>
           d <- fields o
                  (same ["name"; "description"; "currency_base";
                         "currency_profit"; "currency_margin"; "digits";
                         "point"; "spread"; "volume_min"; "volume_max";
                         "volume_step"; "trade_mode"; "bid"; "ask"; "time"]) ;;
           ret (Some d)
       end)
    (fun e =>
       log_error_with_context e ("Failed to get MT4 symbol info for " ++ symbol) ;;
       ret None).

(** [if symbol:] chooses between the filtered and the unfiltered query. *)
Definition symbol_filter (symbol : option string) : option string :=
  match symbol with
  | Some s => if (s =? "")%string then None else Some s
  | None => None
  end.

(** One position record as a dictionary. *)
Definition position_dict (pos : Obj) : Py self (Dict Value) :=
  ticket <- getattr pos "ticket" ;;
  sym <- getattr pos "symbol" ;;
  ty <- getattr pos "type" ;;
  ty' <- getattr pos "type" ;;
  rest <- fields pos
            (same ["volume"; "price_open"; "price_current"; "sl"; "tp";
                   "profit"; "swap"; "comment"; "magic"; "time";
                   "time_update"]) ;;
  ret (("ticket", ticket) :: ("symbol", sym) :: ("type", ty)
       :: ("type_name", VStr (if eq_zero ty' then "BUY" else "SELL"))
       :: rest).

(** The body of [get_positions]. *)
Definition get_positions_body (symbol : option string)
  : Py self (list (Dict Value)) :=
  try_except
    (c <- is_connected ;;
     if negb c then raise not_connected
     else
       ps <- lib_call "positions_get"
               (fun l => MetaTrader4.positions_get l (symbol_filter symbol)) ;;
       match ps with
       | None => ret []
       | Some positions => for_each position_dict positions
       end)
    (fun e => log_error_with_context e "Failed to get MT4 positions" ;; ret []).

(** The body of [get_orders]. *)
Definition get_orders_body (symbol : option string)
  : Py self (list (Dict Value)) :=
  try_except
    (c <- is_connected ;;
     if negb c then raise not_connected
     else
       os <- lib_call "orders_get"
               (fun l => MetaTrader4.orders_get l (symbol_filter symbol)) ;;
       match os with
       | None => ret []
       | Some orders =>
           for_each
             (fun order =>
                fields order
                  (same ["ticket"; "symbol"; "type"; "volume_initial";
                         "volume_current"; "price_open"; "sl"; "tp";
                         "comment"; "magic"; "time_setup";
                         "time_expiration"]))
             orders
       end)
    (fun e => log_error_with_context e "Failed to get MT4 orders" ;; ret []).

(** The body of [get_server_time]: the time of the latest tick of the
    first symbol. *)
Definition get_server_time_body : Py self (option Value) :=
  try_except
    (c <- is_connected ;;
     if negb c then ret None
     else
       symbols <- lib_call "symbols_get" MetaTrader4.symbols_get ;;
       match symbols with
       | Some (first :: _) =>
           name <- getattr first "name" ;;
           tick <- lib_call "symbol_info_tick"
                     (fun l => MetaTrader4.symbol_info_tick l name) ;;
           match tick with
           | Some t =>
               time <- getattr t "time" ;;
               match fromtimestamp time with
               | inr dt => ret (Some dt)
               | inl e => raise e
               end
           | None => ret None
           end
       | _ => ret None
       end)
    (fun e => log_error_with_context e "Failed to get MT4 server time" ;; ret None).

(** The body of [check_symbol_availability]; [a and b] gives [a] when
    [a] is false. *)
Definition check_symbol_availability_body (symbol : string) : Py self Value :=
  try_except
    (c <- is_connected ;;
     if negb c then ret (VBool false)
     else
       a <- lib_call "symbol_info" (fun l => MetaTrader4.symbol_info l symbol) ;;
       match a with
       | None => ret (VBool false)
       | Some o =>
           visible <- getattr o "visible" ;;
           if truthy visible then
             trade_mode <- getattr o "trade_mode" ;;
             ret (VBool (negb (eq_zero trade_mode)))
           else ret visible
       end)
    (fun e =>
       log_error_with_context e
         ("Failed to check MT4 symbol availability for " ++ symbol) ;;
       ret (VBool false)).

(** The decorator applied to a method of this class. *)
Definition decorated {A : Type} (name : string) (body : Py self A) : Py self A :=
  auto_reconnect_mt4 is_connected connect log name body.

Definition get_account_info : Py self (option (Dict Value)) :=
  decorated "get_account_info" get_account_info_body.

Definition get_symbol_info (symbol : string) : Py self (option (Dict Value)) :=
  decorated "get_symbol_info" (get_symbol_info_body symbol).

Definition get_positions (symbol : option string) : Py self (list (Dict Value)) :=
  decorated "get_positions" (get_positions_body symbol).

Definition get_orders (symbol : option string) : Py self (list (Dict Value)) :=
  decorated "get_orders" (get_orders_body symbol).

Definition get_server_time : Py self (option Value) :=
  decorated "get_server_time" get_server_time_body.

Definition check_symbol_availability (symbol : string) : Py self Value :=
  decorated "check_symbol_availability" (check_symbol_availability_body symbol).

(** A run of [m] returns, or raises the connection error the decorator
    makes for the method [name] when its reconnection fails. *)
Definition returns_or_connection_error {A : Type} (name : string)
    (m : Py self A) : Prop :=
  forall s, exists s',
    (exists a, m s = (s', inr a))
    \/ (exists e, m s = (s', inl (err_during name e))).

(** The arguments [connect] gives to [initialize]: the path when the
    configured one is true, and the port. *)
Definition path_arg (s : self) : option Value :=
  let terminal_path := dict_get (config s) "terminal_path" (VStr "") in
  if truthy terminal_path then Some terminal_path else None.

Definition port_arg (s : self) : Value :=
  dict_get (config s) "bridge_port" (VInt 7788).

(** [BaseConnector.validate_connection] *)
Definition validate_connection : Py self bool :=
  s <- get ;;
  if negb (connected s) then ret false
  else
    try_except
      (a <- get_account_info ;;
       ret (match a with Some _ => true | None => false end))
      (fun _ => modify (set_connected false) ;; ret false).

End MT4.

(** ** The name of the platform *)

(** [c.upper()] on one ASCII character. *)
Definition upper_ascii (c : ascii) : ascii :=
  let n := nat_of_ascii c in
  if ((97 <=? n)%nat && (n <=? 122)%nat)%bool then ascii_of_nat (n - 32) else c.

(** [s.upper()] *)
Fixpoint upper (s : string) : string :=
  match s with
  | EmptyString => EmptyString
  | String c s' => String (upper_ascii c) (upper s')
  end.

(** [s.replace(old, '')] for a non-empty [old]; [skip] counts the
    characters of a match still to drop. *)
Fixpoint remove_all (old : string) (skip : nat) (s : string) : string :=
  match s with
  | EmptyString => EmptyString
  | String c s' =>
      match skip with
      | Datatypes.S k => remove_all old k s'
      | O =>
          if prefix old s then remove_all old (String.length old - 1) s'
          else String c (remove_all old O s')
      end
  end.

(** [BaseConnector.get_platform_name] for a class named [class_name]:
    [class_name.replace('Connector', '').upper()]. *)
Definition get_platform_name (class_name : string) : string :=
  upper (remove_all "Connector" 0 class_name).

(** ** The connector factory *)

Set Warnings "-register-all".

(** A declarative description of a configuration. *)
Inductive Schema : Type :=
| SStr (s : string)
| SBool (b : bool)
| SInt (n : Z)
| SDict (d : list (string * Schema)).

Section Factory.
(** A configuration mapping and what a constructor builds from it. *)
Variables Config Instance : Type.

(** A class: its name, [issubclass(cls, BaseConnector)] and its
    constructor, which may raise. *)
Record Class : Type := {
  cls_name : string;
  cls_is_connector : bool;
  cls_init : Config -> exn + Instance
}.

(** An object with its class. *)
Record Connector : Type := {
  connector_class : Class;
  connector_state : Instance
}.

(** [connector_class(config)] *)
Definition instantiate (c : Class) (config : Config) : exn + Connector :=
  match cls_init c config with
  | inr st => inr {| connector_class := c; connector_state := st |}
  | inl e => inl e
  end.

(** [isinstance(x, BaseConnector)] *)
Definition isinstance_BaseConnector (x : Connector) : bool :=
  cls_is_connector (connector_class x).

(** [mt5_connector.py] is not under src/: its class is taken as given. *)
Variables MT5Connector_cls MT4Connector_cls : Class.

(** The class attribute [ConnectorFactory._connectors]; the class methods
    run on its current value. *)
Definition Registry : Type := Dict Class.

Definition _connectors : Registry :=
  [("mt5", MT5Connector_cls); ("mt4", MT4Connector_cls)].

Definition unsupported (platform : string) (reg : Registry) : exn :=
  Exc ValueError
      ("Unsupported trading platform: " ++ platform
       ++ ". Supported platforms: " ++ join ", " (dict_keys reg)).

(** [ConnectorFactory.create_connector] *)
Definition create_connector (platform : string) (config : Config)
  : Py Registry Connector :=
  let platform := lower platform in
  reg <- get ;;
  if negb (dict_mem reg platform) then raise (unsupported platform reg)
  else
    match dict_lookup reg platform with
    | Some connector_class =>
        match instantiate connector_class config with
        | inr x => ret x
        | inl e => raise e
        end
    | None => raise (Exc (OtherException "KeyError") platform)
    end.

(** [ConnectorFactory.get_supported_platforms] *)
Definition get_supported_platforms : Py Registry (list string) :=
  reg <- get ;; ret (dict_keys reg).

(** [ConnectorFactory.is_platform_supported] *)
Definition is_platform_supported (platform : string) : Py Registry bool :=
  reg <- get ;; ret (dict_mem reg (lower platform)).

(** [ConnectorFactory.register_connector] *)
Definition register_connector (platform : string) (connector_class : Class)
  : Py Registry unit :=
  if negb (cls_is_connector connector_class) then
    raise (Exc ValueError "Connector class must inherit from BaseConnector")
  else modify (fun reg => dict_set reg (lower platform) connector_class).

Definition timeout_schema : Schema :=
  SDict [("type", SStr "dict"); ("required", SBool false);
         ("properties",
          SDict [("connect", SDict [("type", SStr "integer"); ("default", SInt 30)]);
                 ("trade", SDict [("type", SStr "integer"); ("default", SInt 10)])])].

(** The table local to [get_platform_config_schema]. *)
Definition schemas : Dict (Dict Schema) :=
  [("mt5",
    [("terminal_path",
      SDict [("type", SStr "string"); ("required", SBool false);
             ("description", SStr "MT5 terminal executable path")]);
     ("timeout", timeout_schema)]);
   ("mt4",
    [("terminal_path",
      SDict [("type", SStr "string"); ("required", SBool false);
             ("description", SStr "MT4 terminal executable path")]);
     ("bridge_port",
      SDict [("type", SStr "integer"); ("required", SBool false);
             ("default", SInt 7788);
             ("description", SStr "MT4 bridge server port")]);
     ("ea_name",
      SDict [("type", SStr "string"); ("required", SBool false);
             ("default", SStr "MT4Bridge");
             ("description", SStr "MT4 Expert Advisor name")]);
     ("timeout", timeout_schema)])].

(** [ConnectorFactory.get_platform_config_schema] *)
Definition get_platform_config_schema (platform : string)
  : Py Registry (Dict Schema) :=
  let platform := lower platform in
  ret (dict_get schemas platform []).

End Factory.

Arguments cls_name {Config Instance}.
Arguments cls_is_connector {Config Instance}.
Arguments cls_init {Config Instance}.
Arguments connector_class {Config Instance}.
Arguments connector_state {Config Instance}.
Arguments instantiate {Config Instance}.
Arguments isinstance_BaseConnector {Config Instance}.
Arguments unsupported {Config Instance}.
Arguments create_connector {Config Instance}.
Arguments get_supported_platforms {Config Instance}.
Arguments is_platform_supported {Config Instance}.
Arguments register_connector {Config Instance}.
Arguments get_platform_config_schema {Config Instance}.
Arguments _connectors {Config Instance}.

(** The class [MT4Connector] as the factory sees it, where
    [import MetaTrader4] gives [import] and the terminal is in state
    [world]: it derives from [BaseConnector], and calling it runs
    [__init__]. *)
Definition MT4Connector_class {D : Type} (import : exn + MetaTrader4.lib D)
    (world : D) : Class (Dict Value) (MT4Connector D) :=
  {| cls_name := "MT4Connector";
     cls_is_connector := true;
     cls_init := __init__ import world |}.

(** ** What a run leaves alone *)

(** Every run of [m] ends in a state related by [R] to the one it
    started in. *)
Definition respects {S A : Type} (R : S -> S -> Prop) (m : Py S A) : Prop :=
  forall s, R s (final (m s)).

(** [s'] has the configuration and the library of [s]. *)
Definition same_setup {D : Type} (s s' : MT4Connector D) : Prop :=
  config s' = config s /\ mt4_lib s' = mt4_lib s.

(** The log of [s'] is the log of [s] with records added at the end. *)
Definition log_extends {D : Type} (s s' : MT4Connector D) : Prop :=
  exists more, logger s' = (logger s ++ more)%list.

(** [s'] has the cached account record of [s]. *)
Definition same_cache {D : Type} (s s' : MT4Connector D) : Prop :=
  account_info s' = account_info s.

(** Every public operation of the connector keeps [R]. *)
Definition kept_by_every_operation {D : Type}
    (fromtimestamp : Value -> exn + Value)
    (R : MT4Connector D -> MT4Connector D -> Prop) : Prop :=
  respects R (@connect D)
  /\ respects R (@disconnect D)
  /\ respects R (@is_connected D)
  /\ respects R (@validate_connection D)
  /\ respects R (@get_account_info D)
  /\ (forall symbol, respects R (@get_symbol_info D symbol))
  /\ (forall symbol, respects R (@get_positions D symbol))
  /\ (forall symbol, respects R (@get_orders D symbol))
  /\ respects R (@get_server_time D fromtimestamp)
  /\ (forall symbol, respects R (@check_symbol_availability D symbol)).

(** [is_connected], [disconnect] and the bodies of the decorated methods
    keep [R]: everything but [connect] and what may call it. *)
Definition kept_without_connect {D : Type}
    (fromtimestamp : Value -> exn + Value)
    (R : MT4Connector D -> MT4Connector D -> Prop) : Prop :=
  respects R (@disconnect D)
  /\ respects R (@is_connected D)
  /\ respects R (@get_account_info_body D)
  /\ (forall symbol, respects R (@get_symbol_info_body D symbol))
  /\ (forall symbol, respects R (@get_positions_body D symbol))
  /\ (forall symbol, respects R (@get_orders_body D symbol))
  /\ respects R (@get_server_time_body D fromtimestamp)
  /\ (forall symbol, respects R (@check_symbol_availability_body D symbol)).

(** ** The dictionaries the queries build *)

(** The keys of the account dictionary with the attributes they are read
    from, as [get_account_info] lists them. *)
Definition account_fields : list (string * string) :=
  [("login", "login"); ("name", "name"); ("server", "server");
   ("currency", "currency"); ("balance", "balance");
   ("equity", "equity"); ("margin", "margin");
   ("free_margin", "margin_free");
   ("margin_level", "margin_level"); ("profit", "profit");
   ("company", "company"); ("trade_allowed", "trade_allowed");
   ("trade_expert", "trade_expert"); ("leverage", "leverage")].

(** The keys of the dictionaries of [get_symbol_info], [get_positions]
    and [get_orders], in order. *)
Definition symbol_keys : list string :=
  ["name"; "description"; "currency_base"; "currency_profit";
   "currency_margin"; "digits"; "point"; "spread"; "volume_min";
   "volume_max"; "volume_step"; "trade_mode"; "bid"; "ask"; "time"].

Definition position_keys : list string :=
  ["ticket"; "symbol"; "type"; "type_name"; "volume"; "price_open";
   "price_current"; "sl"; "tp"; "profit"; "swap"; "comment"; "magic";
   "time"; "time_update"].

Definition order_keys : list string :=
  ["ticket"; "symbol"; "type"; "volume_initial"; "volume_current";
   "price_open"; "sl"; "tp"; "comment"; "magic"; "time_setup";
   "time_expiration"].

(** The entries of [d] are the attributes of [o] that [names] lists,
    under the keys it gives them. *)
Definition copied_from (o : Obj) (names : list (string * string))
    (d : Dict Value) : Prop :=
  Forall2 (fun kn kv => fst kv = fst kn /\ o (snd kn) = inr (snd kv)) names d.

(** [d] is the dictionary of the position record [pos]: the fifteen
    keys in order, [type_name] telling buy from sell by [type == 0], and
    every other entry holding the attribute of its name.  *)
Definition position_of (pos : Obj) (d : Dict Value) : Prop :=
  dict_keys d = position_keys
  /\ (exists t,
        pos "type" = inr t
        /\ dict_lookup d "type_name"
           = Some (VStr (if eq_zero t then "BUY" else "SELL")))
  /\ (forall k v, In (k, v) d -> k <> "type_name" -> pos k = inr v).

(** [d] is the dictionary of the order record [order]: the twelve keys
    in order, each holding the attribute of its name. *)
Definition order_of (order : Obj) (d : Dict Value) : Prop :=
  dict_keys d = order_keys
  /\ (forall k v, In (k, v) d -> order k = inr v).

(** ** Concrete terminals and connectors *)

Module Examples.

(** A driver record with the given attributes. *)
Definition obj_of (d : Dict Value) : Obj :=
  fun name =>
    match dict_lookup d name with
    | Some v => inr v
    | None =>
        inl (Exc AttributeError ("object has no attribute '" ++ name ++ "'"))
    end.

Definition account : Obj :=
  obj_of [("login", VInt 1001); ("name", VStr "Demo"); ("server", VStr "Demo-1");
          ("currency", VStr "USD"); ("balance", VInt 5000);
          ("equity", VInt 5000); ("margin", VInt 0);
          ("margin_free", VInt 5000); ("margin_level", VInt 0);
          ("profit", VInt 0); ("company", VStr "Broker");
          ("trade_allowed", VBool true); ("trade_expert", VBool true);
          ("leverage", VInt 100)].

(** What [get_account_info] makes of [account]. *)
Definition account_dict : Dict Value :=
  [("login", VInt 1001); ("name", VStr "Demo"); ("server", VStr "Demo-1");
   ("currency", VStr "USD"); ("balance", VInt 5000);
   ("equity", VInt 5000); ("margin", VInt 0);
   ("free_margin", VInt 5000); ("margin_level", VInt 0);
   ("profit", VInt 0); ("company", VStr "Broker");
   ("trade_allowed", VBool true); ("trade_expert", VBool true);
   ("leverage", VInt 100)].

(** The terminals below keep in their state the number of calls of the
    one function that matters for them. *)

(** A terminal that answers every call. *)
Definition healthy : MetaTrader4.lib nat :=
  MetaTrader4.Lib
    (fun _ _ => ret true) (ret tt) (ret (Some account))
    (fun _ => ret None) (fun _ => ret (Some [])) (fun _ => ret (Some []))
    (ret (Some [])) (fun _ => ret None).

(** [initialize] answers false the first time and true afterwards. *)
Definition flaky : MetaTrader4.lib nat :=
  MetaTrader4.Lib
    (fun _ _ n => (Datatypes.S n, inr (1 <=? n)%nat))
    (ret tt) (ret (Some account))
    (fun _ => ret None) (fun _ => ret (Some [])) (fun _ => ret (Some []))
    (ret (Some [])) (fun _ => ret None).

(** [initialize] always answers false. *)
Definition dead : MetaTrader4.lib nat :=
  MetaTrader4.Lib
    (fun _ _ n => (Datatypes.S n, inr false))
    (ret tt) (ret None)
    (fun _ => ret None) (fun _ => ret None) (fun _ => ret None)
    (ret None) (fun _ => ret None).

(** The account query gives [None]. *)
Definition logged_out : MetaTrader4.lib nat :=
  MetaTrader4.Lib
    (fun _ _ => ret true) (ret tt) (fun n => (Datatypes.S n, inr None))
    (fun _ => ret None) (fun _ => ret (Some [])) (fun _ => ret (Some []))
    (ret (Some [])) (fun _ => ret None).

(** [shutdown] raises the first time and returns afterwards. *)
Definition stuck : MetaTrader4.lib nat :=
  MetaTrader4.Lib
    (fun _ _ => ret true)
    (fun n =>
       (Datatypes.S n,
        if (n =? 0)%nat
        then inl (Exc (OtherException "RuntimeError") "terminal busy")
        else inr tt))
    (ret (Some account))
    (fun _ => ret None) (fun _ => ret (Some [])) (fun _ => ret (Some []))
    (ret (Some [])) (fun _ => ret None).

(** [symbols_get] raises a socket error the first time. *)
Definition dropping : MetaTrader4.lib nat :=
  MetaTrader4.Lib
    (fun _ _ => ret true) (ret tt) (ret (Some account))
    (fun _ => ret None) (fun _ => ret (Some [])) (fun _ => ret (Some []))
    (fun n =>
       (Datatypes.S n,
        if (n =? 0)%nat
        then inl (Exc (OtherException "OSError") "Connection reset by peer")
        else inr (Some [])))
    (fun _ => ret None).

(** [symbol_info] rejects the symbol. *)
Definition rejecting : MetaTrader4.lib nat :=
  MetaTrader4.Lib
    (fun _ _ => ret true) (ret tt) (ret (Some account))
    (fun sym n => (Datatypes.S n, inl (Exc ValueError ("unknown symbol " ++ sym))))
    (fun _ => ret (Some [])) (fun _ => ret (Some []))
    (ret (Some [])) (fun _ => ret None).

(** The session is gone for good: the account query still answers, the
    symbol list raises a socket error and [initialize] answers false. *)
Definition lost : MetaTrader4.lib nat :=
  MetaTrader4.Lib
    (fun _ _ => ret false) (ret tt) (ret (Some account))
    (fun _ => ret None) (fun _ => ret (Some [])) (fun _ => ret (Some []))
    (raise (Exc (OtherException "OSError") "Connection reset by peer"))
    (fun _ => ret None).

(** A connector as its constructor leaves it, on the library [l]. *)
Definition fresh (l : MetaTrader4.lib nat) : MT4Connector nat :=
  Self [] false None [] (Some l) 0.

(** A connector after a successful [connect]. *)
Definition up (l : MetaTrader4.lib nat) : MT4Connector nat :=
  Self [] true (Some account) [] (Some l) 0.

(** Two methods that call the library without a [try] of their own. *)
Definition list_symbols : Py (MT4Connector nat) (option (list Obj)) :=
  lib_call "symbols_get" MetaTrader4.symbols_get.

Definition raw_symbol_info (symbol : string)
  : Py (MT4Connector nat) (option Obj) :=
  lib_call "symbol_info" (fun l => MetaTrader4.symbol_info l symbol).

(** Classes over configurations that are dictionaries, building
    connector objects.  The first three only set the fields of the base
    class. *)
Definition Cfg : Type := Dict Value.

Definition base_init (config : Cfg) : exn + MT4Connector nat :=
  inr (Self config false None [] None 0).

Definition MT5Connector_cls : Class Cfg (MT4Connector nat) :=
  {| cls_name := "MT5Connector"; cls_is_connector := true;
     cls_init := base_init |}.

Definition CTraderConnector_cls : Class Cfg (MT4Connector nat) :=
  {| cls_name := "CTraderConnector"; cls_is_connector := true;
     cls_init := base_init |}.

(** A class that does not derive from [BaseConnector]. *)
Definition Plain_cls : Class Cfg (MT4Connector nat) :=
  {| cls_name := "Plain"; cls_is_connector := false;
     cls_init := base_init |}.

(** The MT4 class where the [MetaTrader4] package is not installed. *)
Definition MT4Connector_cls : Class Cfg (MT4Connector nat) :=
  MT4Connector_class (inl (Exc ImportError "No module named 'MetaTrader4'")) 0.

(** The registry out of the box, without and with the package. *)
Definition registry : Registry Cfg (MT4Connector nat) :=
  _connectors MT5Connector_cls MT4Connector_cls.

Definition registry_with_library : Registry Cfg (MT4Connector nat) :=
  _connectors MT5Connector_cls (MT4Connector_class (inr healthy) 0).

End Examples.

(** * Properties *)

(** ** The computations *)

Ltac unfold_py :=
  unfold bind, ret, raise, try_except, modify, get, getattr,
    outcome, final in *.

Lemma ret_never_raises {S A : Type} (a : A) : never_raises (@ret S A a).
Proof. intros s. exists s, a. reflexivity. Qed.

Lemma bind_never_raises {S A B : Type} (m : Py S A) (k : A -> Py S B) :
  never_raises m -> (forall a, never_raises (k a)) -> never_raises (bind m k).
Proof.
  intros Hm Hk s. destruct (Hm s) as (s1 & a & E).
  destruct (Hk a s1) as (s2 & b & E2).
  exists s2, b. unfold bind. rewrite E. exact E2.
Qed.

Lemma modify_never_raises {S : Type} (f : S -> S) : never_raises (modify f).
Proof. intros s. exists (f s), tt. reflexivity. Qed.

(** A [try] whose handler returns in every case returns in every case. *)
Lemma try_except_never_raises {S A : Type} (m : Py S A) (h : exn -> Py S A) :
  (forall e, never_raises (h e)) -> never_raises (try_except m h).
Proof.
  intros Hh s. unfold try_except.
  destruct (m s) as [s1 [e|a]] eqn:E.
  - apply Hh.
  - exists s1, a. reflexivity.
Qed.

Create HintDb py.

#[local] Hint Resolve ret_never_raises bind_never_raises modify_never_raises
  try_except_never_raises : py.

(** ** The decorator *)

Section AutoReconnectFacts.
Context {S A : Type}.
Variable is_connected : Py S bool.
Variable connect : Py S bool.
Variable logger : Level -> string -> S -> S.
Variable func_name : string.
Variable func : Py S A.

#[local] Abbreviation wrapper :=
  (auto_reconnect_mt4 is_connected connect logger func_name func).
#[local] Abbreviation wrapper_traced :=
  (auto_reconnect_traced is_connected connect logger func_name func).
#[local] Abbreviation trace :=
  (trace_of is_connected connect logger func_name func).
#[local] Abbreviation check :=
  (pre_check is_connected connect logger func_name).
#[local] Abbreviation check_traced :=
  (pre_check_traced is_connected connect logger func_name).
#[local] Abbreviation check_trace :=
  (pre_check_trace is_connected connect logger func_name).

(** Case analysis on the next call of one of the three. *)
Ltac next_call :=
  match goal with
  | |- context [is_connected ?s] =>
      let E := fresh "E" in
      destruct (is_connected s) as [? [?|[|]]] eqn:E; simpl
  | |- context [connect ?s] =>
      let E := fresh "E" in
      destruct (connect s) as [? [?|[|]]] eqn:E; simpl
  | |- context [func ?s] =>
      let E := fresh "E" in
      destruct (func s) as [? [?|?]] eqn:E; simpl
  | |- context [connection_related ?c ?e] =>
      let E := fresh "E" in
      destruct (connection_related c e) eqn:E; simpl
  end.

Ltac unfold_wrapper :=
  unfold trace_of, pre_check_trace,
    auto_reconnect_traced, pre_check_traced, auto_reconnect_mt4,
    pre_check, on_exception, traced, lift_logger, calls;
  unfold_py; simpl.

(** Recording the calls changes neither the outcome nor the state. *)
Lemma trace_erasure (s : S) (t : list Event) :
  (fst (fst (wrapper_traced (s, t))), snd (wrapper_traced (s, t))) = wrapper s.
Proof.
  unfold_wrapper. repeat (next_call; try reflexivity).
Qed.

(** No run of the decorator calls the operation more than twice. *)
Lemma func_called_at_most_twice (s : S) : calls EvFunc (trace s) <= 2.
Proof.
  unfold_wrapper. repeat (next_call; try lia).
Qed.

(** The connection check, recorded: the same run, its calls added. *)
Lemma pre_check_erasure (s : S) (t : list Event) :
  check_traced (s, t)
  = ((fst (check s), (t ++ check_trace s)%list), snd (check s)).
Proof.
  unfold_wrapper. repeat (next_call; try reflexivity);
    rewrite <- ?app_assoc; reflexivity.
Qed.

(** The connection check never calls the operation. *)
Lemma pre_check_no_func (s : S) : calls EvFunc (check_trace s) = 0.
Proof.
  unfold_wrapper. repeat (next_call; try reflexivity).
Qed.

(** What the recorded decorator does once the check has passed and the
    first attempt has raised [e]. *)
Lemma traced_after_failure (s0 s1 s2 : S) (e : exn) :
  check s0 = (s1, inr tt) ->
  func s1 = (s2, inl e) ->
  wrapper_traced (s0, [])
  = on_exception (traced EvIsConnected is_connected)
      (traced EvConnect connect) (lift_logger logger) func_name
      (traced EvFunc func) e
      (s2, (check_trace s0 ++ [EvFunc])%list).
Proof.
  intros Hpre Hfunc.
  unfold auto_reconnect_traced, auto_reconnect_mt4.
  unfold try_except at 1. unfold bind at 1.
  fold check_traced.
  rewrite pre_check_erasure, Hpre. simpl.
  unfold traced at 1. simpl. rewrite Hfunc. reflexivity.
Qed.

(** The error of a failed connection check is raised inside the [try]:
    the handler receives it, and since it is a connection error the
    handler goes on to [connect] once more. *)
Lemma failed_check_is_handled (s0 s1 s2 : S) :
  is_connected s0 = (s1, inr false) ->
  connect (logger WARNING (msg_before func_name) s1) = (s2, inr false) ->
  wrapper s0
  = on_exception is_connected connect logger func_name func
      (err_before func_name) s2.
Proof.
  intros Hc Hk. unfold auto_reconnect_mt4, pre_check. unfold_py.
  rewrite Hc. simpl. rewrite Hk. reflexivity.
Qed.

(** C2: when the first attempt of the operation raises a connection-related
    failure and the one reconnect succeeds, the operation is run once more
    and that run's outcome is the outcome of the call; the operation is
    called exactly twice here, and never more than twice in any run. *)
Theorem retry_exactly_once (s0 s1 s2 s3 s4 : S) (e : exn) (c : bool) :
  check s0 = (s1, inr tt) ->
  func s1 = (s2, inl e) ->
  is_connected s2 = (s3, inr c) ->
  connection_related c e = true ->
  connect (logger WARNING (msg_lost func_name) s3) = (s4, inr true) ->
  wrapper s0 = func (logger INFO (msg_retrying func_name) s4)
  /\ trace s0
     = (check_trace s0 ++ [EvFunc; EvIsConnected; EvConnect; EvFunc])%list
  /\ calls EvFunc (trace s0) = 2
  /\ (forall s, calls EvFunc (trace s) <= 2).
Proof.
  intros Hpre Hfunc Hconn Hrel Hre.
  assert (Htrace : trace s0
            = (check_trace s0 ++ [EvFunc; EvIsConnected; EvConnect; EvFunc])%list).
  { unfold trace_of. rewrite (traced_after_failure s0 s1 s2 e Hpre Hfunc).
    unfold on_exception, traced, lift_logger. unfold_py. simpl.
    rewrite Hconn. simpl. rewrite Hrel. simpl. rewrite Hre. simpl.
    destruct (func (logger INFO (msg_retrying func_name) s4)) as [s5 r].
    simpl. rewrite <- !app_assoc. reflexivity. }
  split; [|split; [exact Htrace|split]].
  - unfold auto_reconnect_mt4, on_exception. unfold_py.
    rewrite Hpre, Hfunc, Hconn, Hrel. simpl. rewrite Hre. reflexivity.
  - rewrite Htrace. unfold calls. rewrite count_occ_app.
    fold (calls EvFunc (check_trace s0)). rewrite pre_check_no_func.
    reflexivity.
  - apply func_called_at_most_twice.
Qed.

(** C6: when the first attempt raises a failure that is not
    connection-related (the live check still answers true, the message
    has no connection wording, the class is not the connection error),
    the failure is raised again as it is, and after the attempt the
    decorator calls [is_connected] once and [connect] not at all. *)
Theorem other_failure_surfaced (s0 s1 s2 s3 : S) (e : exn) :
  check s0 = (s1, inr tt) ->
  func s1 = (s2, inl e) ->
  is_connected s2 = (s3, inr true) ->
  contains "not connected" (lower (exc_msg e)) = false ->
  contains "connection" (lower (exc_msg e)) = false ->
  isinstance_ConnectionError e = false ->
  wrapper s0 = (s3, inl e)
  /\ trace s0 = (check_trace s0 ++ [EvFunc; EvIsConnected])%list
  /\ calls EvConnect (trace s0) = calls EvConnect (check_trace s0)
  /\ calls EvFunc (trace s0) = 1.
Proof.
  intros Hpre Hfunc Hconn H1 H2 H3.
  assert (Hrel : connection_related true e = false).
  { unfold connection_related. rewrite H1, H2, H3. reflexivity. }
  assert (Htrace : trace s0 = (check_trace s0 ++ [EvFunc; EvIsConnected])%list).
  { unfold trace_of. rewrite (traced_after_failure s0 s1 s2 e Hpre Hfunc).
    unfold on_exception, traced, lift_logger. unfold_py. simpl.
    rewrite Hconn. simpl. rewrite Hrel. simpl.
    rewrite <- !app_assoc. reflexivity. }
  split; [|split; [exact Htrace|split]].
  - unfold auto_reconnect_mt4, on_exception. unfold_py.
    rewrite Hpre, Hfunc, Hconn, Hrel. reflexivity.
  - rewrite Htrace. unfold calls. rewrite count_occ_app. simpl. lia.
  - rewrite Htrace. unfold calls. rewrite count_occ_app.
    fold (calls EvFunc (check_trace s0)). rewrite pre_check_no_func.
    reflexivity.
Qed.

(** X1: when the connection check passes and the operation returns, the
    decorated call returns what the operation returned, in the state the
    operation left; the operation ran once and nothing was called after
    it. *)
Theorem passed_check_runs_once (s0 s1 s2 : S) (a : A) :
  check s0 = (s1, inr tt) ->
  func s1 = (s2, inr a) ->
  wrapper s0 = (s2, inr a)
  /\ trace s0 = (check_trace s0 ++ [EvFunc])%list
  /\ calls EvFunc (trace s0) = 1.
Proof.
  intros Hpre Hfunc.
  assert (Htrace : trace s0 = (check_trace s0 ++ [EvFunc])%list).
  { unfold trace_of, auto_reconnect_traced, auto_reconnect_mt4.
    unfold try_except at 1. unfold bind at 1. fold check_traced.
    rewrite pre_check_erasure, Hpre. simpl.
    unfold traced at 1. simpl. rewrite Hfunc. reflexivity. }
  split; [|split; [exact Htrace|]].
  - unfold auto_reconnect_mt4. unfold_py. rewrite Hpre, Hfunc. reflexivity.
  - rewrite Htrace. unfold calls. rewrite count_occ_app.
    fold (calls EvFunc (check_trace s0)). rewrite pre_check_no_func.
    reflexivity.
Qed.

(** X2: when the first attempt raises a connection-related failure and
    the reconnect fails, the call raises a connection error whose message
    names the method and ends with the message of the original failure;
    the failure is logged, and the operation is not run again. *)
Theorem failed_reconnect_wraps_failure (s0 s1 s2 s3 s4 : S) (e : exn) (c : bool) :
  check s0 = (s1, inr tt) ->
  func s1 = (s2, inl e) ->
  is_connected s2 = (s3, inr c) ->
  connection_related c e = true ->
  connect (logger WARNING (msg_lost func_name) s3) = (s4, inr false) ->
  wrapper s0
  = (logger ERROR (msg_failed func_name) s4,
     inl (Exc ConnectionError
            ("MT4 reconnection failed during " ++ func_name ++ ": " ++ exc_msg e)))
  /\ trace s0 = (check_trace s0 ++ [EvFunc; EvIsConnected; EvConnect])%list
  /\ calls EvFunc (trace s0) = 1.
Proof.
  intros Hpre Hfunc Hconn Hrel Hre.
  assert (Htrace : trace s0
            = (check_trace s0 ++ [EvFunc; EvIsConnected; EvConnect])%list).
  { unfold trace_of. rewrite (traced_after_failure s0 s1 s2 e Hpre Hfunc).
    unfold on_exception, traced, lift_logger. unfold_py. simpl.
    rewrite Hconn. simpl. rewrite Hrel. simpl. rewrite Hre. simpl.
    rewrite <- !app_assoc. reflexivity. }
  split; [|split; [exact Htrace|]].
  - unfold auto_reconnect_mt4, on_exception. unfold_py.
    rewrite Hpre, Hfunc, Hconn, Hrel. simpl. rewrite Hre. reflexivity.
  - rewrite Htrace. unfold calls. rewrite count_occ_app.
    fold (calls EvFunc (check_trace s0)). rewrite pre_check_no_func.
    reflexivity.
Qed.

(** X3: every decorated call starts with [is_connected]; it calls
    [is_connected] at most twice and [connect] at most twice, and makes at
    most six of the three calls in all. *)
Theorem decorator_call_bounds (s : S) :
  (exists rest, trace s = EvIsConnected :: rest)
  /\ calls EvIsConnected (trace s) <= 2
  /\ calls EvConnect (trace s) <= 2
  /\ List.length (trace s) <= 6.
Proof.
  unfold_wrapper.
  repeat (next_call; try (split; [eexists; reflexivity | simpl; lia])).
Qed.

(** X4: an operation that absorbs its own exceptions is run at most once:
    the decorator never retries it, and reaches its handler only through a
    failed connection check. *)
Theorem absorbing_func_never_retried (s : S) :
  never_raises func ->
  calls EvFunc (trace s) <= 1
  /\ (forall s1, check s = (s1, inr tt) -> exists s2 a, wrapper s = (s2, inr a)).
Proof.
  intros Hf. split.
  - unfold_wrapper.
    repeat (first
      [ match goal with
        | |- context [func ?s] =>
            let E := fresh "E" in
            destruct (Hf s) as (? & ? & E); rewrite E; simpl
        end
      | next_call ]; try lia).
  - intros s1 Hpre. destruct (Hf s1) as (s2 & a & E).
    exists s2, a. unfold auto_reconnect_mt4. unfold_py.
    rewrite Hpre, E. reflexivity.
Qed.

End AutoReconnectFacts.

(** ** The MT4 connector *)

(** Case analysis on a scrutinee that has no case analysis inside. *)
Ltac break_inner :=
  match goal with
  | |- context [match ?x with _ => _ end] =>
      lazymatch x with
      | context [match _ with _ => _ end] => fail
      | _ => let E := fresh "E" in destruct x eqn:E; simpl in *
      end
  end.

Section MT4Facts.
Context {D : Type}.
Variable fromtimestamp : Value -> exn + Value.

#[local] Abbreviation self := (MT4Connector D).

Lemma log_error_never_raises (e : exn) (context : string) :
  never_raises (@log_error_with_context D e context).
Proof. apply modify_never_raises. Qed.

(** Every run of [connect]. *)
Lemma connect_cases (s : self) :
  exists s' b,
    connect s = (s', inr b)
    /\ connected s' = b
    /\ (b = true ->
        exists l d1 d2 o,
          mt4_lib s = Some l
          /\ MetaTrader4.initialize l (path_arg s) (port_arg s) (terminal s)
             = (d1, inr true)
          /\ MetaTrader4.account_info l d1 = (d2, inr (Some o))
          /\ account_info s' = Some o).
Proof.
  unfold connect, path_arg, port_arg, call, log_error_with_context.
  unfold_py. simpl.
  repeat break_inner;
    (do 2 eexists; split; [reflexivity|]; split; [reflexivity|];
     intros Hb; try discriminate).
  all: match goal with H : negb ?b = false |- _ => destruct b; try discriminate end.
  all: do 4 eexists; repeat split; eauto.
Qed.

(** C5: [connect] returns in every state and with every driver.  It
    returns false with the flag cleared, or true with the flag set and the
    record of the account query cached.  It returns false whenever the
    library is missing, [initialize] raises or answers false, or the
    account query that follows raises or gives [None]. *)
Theorem connect_never_throws (s : self) :
  exists s' b,
    connect s = (s', inr b)
    /\ connected s' = b
    /\ (b = true ->
        exists l d1 d2 o,
          mt4_lib s = Some l
          /\ MetaTrader4.initialize l (path_arg s) (port_arg s) (terminal s)
             = (d1, inr true)
          /\ MetaTrader4.account_info l d1 = (d2, inr (Some o))
          /\ account_info s' = Some o)
    /\ (mt4_lib s = None -> b = false)
    /\ (forall l d r,
          mt4_lib s = Some l ->
          MetaTrader4.initialize l (path_arg s) (port_arg s) (terminal s) = (d, r) ->
          r <> inr true -> b = false)
    /\ (forall l d1 d2 r,
          mt4_lib s = Some l ->
          MetaTrader4.initialize l (path_arg s) (port_arg s) (terminal s)
          = (d1, inr true) ->
          MetaTrader4.account_info l d1 = (d2, r) ->
          (forall o, r <> inr (Some o)) -> b = false).
Proof.
  destruct (connect_cases s) as (s' & b & E & Hflag & Htrue).
  exists s', b. split; [exact E|]. split; [exact Hflag|]. split; [exact Htrue|].
  destruct b; [|repeat split; reflexivity].
  destruct (Htrue eq_refl) as (l & d1 & d2 & o & Hl & Hinit & Hacc & _).
  split; [|split].
  - intros Hnone. rewrite Hnone in Hl. discriminate.
  - intros l' d r Hl' Hinit' Hr. exfalso. apply Hr.
    rewrite Hl in Hl'. injection Hl' as <-.
    rewrite Hinit in Hinit'. injection Hinit' as _ <-. reflexivity.
  - intros l' d1' d2' r Hl' Hinit' Hacc' Hr. exfalso.
    rewrite Hl in Hl'. injection Hl' as <-.
    rewrite Hinit in Hinit'. injection Hinit' as <-.
    rewrite Hacc in Hacc'. injection Hacc' as _ <-.
    apply (Hr o). reflexivity.
Qed.

Lemma connect_never_raises : never_raises (@connect D).
Proof.
  intros s. destruct (connect_cases s) as (s' & b & E & _).
  exists s', b. exact E.
Qed.

Lemma get_never_raises {S : Type} : never_raises (@get S).
Proof. intros s. exists s, s. reflexivity. Qed.

(** Every run of [is_connected]: it returns; it returns true only after
    a query that gave a record; a query that raises clears the flag; a
    query that gives [None] leaves the flag set. *)
Lemma is_connected_cases (s : self) :
  exists s' b,
    is_connected s = (s', inr b)
    /\ (b = true ->
        connected s' = true
        /\ exists l d o,
             mt4_lib s = Some l
             /\ MetaTrader4.account_info l (terminal s) = (d, inr (Some o)))
    /\ (forall l d e,
          connected s = true -> mt4_lib s = Some l ->
          MetaTrader4.account_info l (terminal s) = (d, inl e) ->
          b = false /\ connected s' = false)
    /\ (forall l d,
          connected s = true -> mt4_lib s = Some l ->
          MetaTrader4.account_info l (terminal s) = (d, inr None) ->
          b = false /\ connected s' = true).
Proof.
  unfold is_connected, call. unfold_py. simpl.
  repeat break_inner;
    (do 2 eexists; split; [reflexivity|]; split; [intros Hb; try discriminate|]).
  all: try (split; [solve [reflexivity | assumption]
                   | do 3 eexists; split; [reflexivity | eassumption]]).
  all: split; intros; try discriminate;
    repeat match goal with
      | H : Some _ = Some _ |- _ => injection H as <-
      end;
    repeat match goal with
      | H1 : ?x = _, H2 : ?x = _ |- _ => rewrite H1 in H2; try discriminate
      end;
    auto.
Qed.

Lemma is_connected_never_raises : never_raises (@is_connected D).
Proof.
  intros s. destruct (is_connected_cases s) as (s' & b & E & _).
  exists s', b. exact E.
Qed.

(** Every run of [disconnect]. *)
Lemma disconnect_cases (s : self) :
  exists s',
    disconnect s = (s', inr tt)
    /\ (connected s = false -> s' = s)
    /\ (forall l d,
          connected s = true -> mt4_lib s = Some l ->
          MetaTrader4.shutdown l (terminal s) = (d, inr tt) ->
          connected s' = false)
    /\ (forall l d e,
          connected s = true -> mt4_lib s = Some l ->
          MetaTrader4.shutdown l (terminal s) = (d, inl e) ->
          connected s' = true).
Proof.
  unfold disconnect, call, log_error_with_context. unfold_py. simpl.
  repeat break_inner;
    (eexists; split; [reflexivity|]; split; [intros Hc; try discriminate; try reflexivity|]).
  all: split; intros; try discriminate;
    repeat match goal with
      | H : Some _ = Some _ |- _ => injection H as <-
      end;
    repeat match goal with
      | H1 : ?x = _, H2 : ?x = _ |- _ => rewrite H1 in H2; try discriminate
      end;
    auto.
Qed.

(** A disconnected connector is left as it is. *)
Lemma disconnect_noop (s : self) :
  connected s = false -> disconnect s = (s, inr tt).
Proof.
  intros Hc. destruct (disconnect_cases s) as (s' & E & Hsame & _).
  rewrite E, (Hsame Hc). reflexivity.
Qed.

(** A body of the form [try: ... except Exception as e: log; return x]. *)
Lemma guarded_never_raises {A : Type} (m : Py self A) (context : string) (x : A) :
  never_raises
    (try_except m (fun e => log_error_with_context e context ;; ret x)).
Proof. unfold log_error_with_context. auto with py. Qed.

Lemma get_account_info_body_never_raises :
  never_raises (@get_account_info_body D).
Proof. apply guarded_never_raises. Qed.

Lemma get_symbol_info_body_never_raises (symbol : string) :
  never_raises (@get_symbol_info_body D symbol).
Proof. apply guarded_never_raises. Qed.

Lemma get_positions_body_never_raises (symbol : option string) :
  never_raises (@get_positions_body D symbol).
Proof. apply guarded_never_raises. Qed.

Lemma get_orders_body_never_raises (symbol : option string) :
  never_raises (@get_orders_body D symbol).
Proof. apply guarded_never_raises. Qed.

Lemma get_server_time_body_never_raises :
  never_raises (@get_server_time_body D fromtimestamp).
Proof. apply guarded_never_raises. Qed.

Lemma check_symbol_availability_body_never_raises (symbol : string) :
  never_raises (@check_symbol_availability_body D symbol).
Proof. apply guarded_never_raises. Qed.

Lemma connection_related_ConnectionError (c : bool) (msg : string) :
  connection_related c (Exc ConnectionError msg) = true.
Proof.
  unfold connection_related, isinstance_ConnectionError. simpl.
  apply orb_true_r.
Qed.

(** A decorated method whose body returns in every case either returns
    or raises the decorator's own connection error. *)
Lemma decorated_outcome {A : Type} (name : string) (body : Py self A) :
  never_raises body ->
  returns_or_connection_error name (decorated name body).
Proof.
  intros Hbody s.
  unfold decorated, auto_reconnect_mt4, pre_check, on_exception.
  unfold_py.
  destruct (is_connected_never_raises s) as (s1 & c & E1). rewrite E1.
  destruct c; simpl.
  - destruct (Hbody s1) as (s2 & a & E2). rewrite E2.
    exists s2. left. exists a. reflexivity.
  - destruct (connect_never_raises (log WARNING (msg_before name) s1))
      as (s2 & ok & E2).
    rewrite E2. destruct ok; simpl.
    + destruct (Hbody s2) as (s3 & a & E3). rewrite E3.
      exists s3. left. exists a. reflexivity.
    + destruct (is_connected_never_raises s2) as (s3 & c & E3). rewrite E3.
      assert (Hr : connection_related c (err_before name) = true)
        by apply connection_related_ConnectionError.
      rewrite Hr.
      destruct (connect_never_raises (log WARNING (msg_lost name) s3))
        as (s4 & ok & E4).
      rewrite E4. destruct ok; simpl.
      * destruct (Hbody (log INFO (msg_retrying name) s4)) as (s5 & a & E5).
        rewrite E5. exists s5. left. exists a. reflexivity.
      * eexists. right. eexists. reflexivity.
Qed.

Lemma validate_connection_never_raises :
  never_raises (@validate_connection D).
Proof.
  unfold validate_connection.
  apply bind_never_raises; [apply get_never_raises|].
  intros s. destruct (negb (connected s)); auto with py.
Qed.



(** C9 (as amended): [disconnect] returns in every state.  On a
    disconnected connector it changes nothing.  When the driver's
    [shutdown] returns, the flag is cleared and a second call changes
    nothing more; when [shutdown] raises, the flag stays set. *)
Theorem disconnect_idempotent_once_down (s : self) :
  exists s',
    disconnect s = (s', inr tt)
    /\ (connected s = false -> s' = s)
    /\ (forall l d,
          connected s = true -> mt4_lib s = Some l ->
          MetaTrader4.shutdown l (terminal s) = (d, inr tt) ->
          connected s' = false)
    /\ (forall l d e,
          connected s = true -> mt4_lib s = Some l ->
          MetaTrader4.shutdown l (terminal s) = (d, inl e) ->
          connected s' = true)
    /\ (connected s' = false -> disconnect s' = (s', inr tt)).
Proof.
  destruct (disconnect_cases s) as (s' & E & Hsame & Hdown & Hexc).
  exists s'. repeat split; try assumption.
  apply disconnect_noop.
Qed.

End MT4Facts.

(** ** Runs on concrete terminals *)

Import Examples.

(** The constructor leaves the connector as [fresh] has it, with one log
    record, and fails where the import fails. *)
Example init_with_library :
  __init__ (inr healthy) 0 []
  = inr (log INFO "MT4 library loaded successfully" (fresh healthy)).
Proof. reflexivity. Qed.

Example init_without_library :
  @__init__ nat (inl (Exc ImportError "No module named 'MetaTrader4'")) 0 []
  = inl (Exc MT4Error "MetaTrader4 library not available").
Proof. reflexivity. Qed.

Example platform_name_MT4 : get_platform_name "MT4Connector" = "MT4".
Proof. reflexivity. Qed.

(** [connect] on a terminal that answers, on one that cannot be
    initialised and on one whose account query gives [None]. *)
Example connect_healthy :
  outcome (connect (fresh healthy)) = inr true
  /\ connected (final (connect (fresh healthy))) = true
  /\ logger (final (connect (fresh healthy)))
     = [(INFO, "Connecting to MT4 with bridge port: 7788");
        (INFO, "MT4 connected successfully - Account: 1001, Server: Demo-1");
        (INFO, "MT4 Account: Demo - Balance: 5000 USD")].
Proof. vm_compute. repeat split. Qed.

Example connect_dead :
  outcome (connect (up dead)) = inr false
  /\ connected (final (connect (up dead))) = false.
Proof. vm_compute. repeat split. Qed.

Example connect_logged_out :
  outcome (connect (fresh logged_out)) = inr false
  /\ connected (final (connect (fresh logged_out))) = false.
Proof. vm_compute. repeat split. Qed.

(** After a [connect] that returned true, [is_connected] is true. *)
Example connected_then_is_connected :
  outcome (is_connected (final (connect (fresh healthy)))) = inr true.
Proof. reflexivity. Qed.

(** C1: on a connector that is not connected, with a terminal whose
    [initialize] fails once, the connection check finds [is_connected]
    false and its [connect] fails; the decorator then checks and connects a
    second time and runs the operation, and the call returns the account. *)
Theorem failed_check_connects_again :
  let s0 := fresh flaky in
  let s1 := final (is_connected s0) in
  outcome (is_connected s0) = inr false
  /\ outcome (connect (log WARNING (msg_before "get_account_info") s1)) = inr false
  /\ trace_of is_connected connect log "get_account_info"
       get_account_info_body s0
     = [EvIsConnected; EvConnect; EvIsConnected; EvConnect; EvFunc]
  /\ outcome (get_account_info s0) = inr (Some account_dict)
  /\ terminal (final (get_account_info s0)) = 2.
Proof. vm_compute. repeat split. Qed.



(** C9, the claim as stated fails: when [shutdown] raises the first time,
    one call leaves the flag set and two calls clear it. *)
Lemma disconnect_twice_differs :
  outcome (disconnect (up stuck)) = inr tt
  /\ connected (final (disconnect (up stuck))) = true
  /\ connected (final (disconnect (final (disconnect (up stuck))))) = false.
Proof. vm_compute. repeat split. Qed.

(** C2 on a terminal whose symbol list fails once with a socket error. *)
Lemma retry_exactly_once_witness :
  auto_reconnect_mt4 is_connected connect log "list_symbols" list_symbols
    (up dropping)
  = list_symbols
      (log INFO (msg_retrying "list_symbols")
         (final (connect
                   (log WARNING (msg_lost "list_symbols")
                      (final (is_connected (final (list_symbols (up dropping)))))))))
  /\ calls EvFunc
       (trace_of is_connected connect log "list_symbols" list_symbols
          (up dropping)) = 2.
Proof.
  pose (s0 := up dropping).
  pose (s2 := final (list_symbols s0)).
  pose (s3 := final (is_connected s2)).
  pose (s4 := final (connect (log WARNING (msg_lost "list_symbols") s3))).
  destruct (retry_exactly_once is_connected connect log "list_symbols"
              list_symbols s0 s0 s2 s3 s4
              (Exc (OtherException "OSError") "Connection reset by peer") true)
    as (H1 & _ & H3 & _); try reflexivity.
  split; [exact H1 | exact H3].
Defined.

(** C6 on a terminal that rejects the symbol. *)
Lemma other_failure_surfaced_witness :
  outcome (auto_reconnect_mt4 is_connected connect log "raw_symbol_info"
             (raw_symbol_info "XYZ") (up rejecting))
  = inl (Exc ValueError "unknown symbol XYZ")
  /\ trace_of is_connected connect log "raw_symbol_info"
       (raw_symbol_info "XYZ") (up rejecting)
     = [EvIsConnected; EvFunc; EvIsConnected].
Proof.
  pose (s0 := up rejecting).
  pose (s2 := final (raw_symbol_info "XYZ" s0)).
  pose (s3 := final (is_connected s2)).
  destruct (other_failure_surfaced is_connected connect log "raw_symbol_info"
              (raw_symbol_info "XYZ") s0 s0 s2 s3
              (Exc ValueError "unknown symbol XYZ"))
    as (H1 & H2 & _ & _); try reflexivity.
  split; [unfold s0 in H1; rewrite H1; reflexivity | exact H2].
Defined.

(** ** Strings and dictionaries *)

Lemma lower_ascii_idempotent (c : ascii) : lower_ascii (lower_ascii c) = lower_ascii c.
Proof. destruct c as [[] [] [] [] [] [] [] []]; reflexivity. Qed.

Lemma lower_idempotent (s : string) : lower (lower s) = lower s.
Proof.
  induction s as [|c s IH]; simpl; [reflexivity|].
  rewrite lower_ascii_idempotent, IH. reflexivity.
Qed.

Lemma dict_lookup_In {V : Type} (d : Dict V) (k : string) :
  In k (dict_keys d) <-> exists v, dict_lookup d k = Some v.
Proof.
  induction d as [|[k' v'] d IH]; simpl.
  - split; [intros [] | intros [v Hv]; discriminate].
  - destruct (String.eqb_spec k' k) as [->|Hne].
    + split; [intros _; exists v'; reflexivity | intros _; left; reflexivity].
    + rewrite <- IH. split; [intros [H|H]; [contradiction|exact H] | auto].
Qed.

Lemma dict_mem_In {V : Type} (d : Dict V) (k : string) :
  dict_mem d k = true <-> In k (dict_keys d).
Proof.
  rewrite dict_lookup_In. unfold dict_mem.
  destruct (dict_lookup d k) as [v|].
  - split; [intros _; exists v; reflexivity | reflexivity].
  - split; [discriminate | intros [v Hv]; discriminate].
Qed.

(** After [d[k] = v], [d[k]] is [v]. *)
Lemma dict_lookup_set_same {V : Type} (d : Dict V) (k : string) (v : V) :
  dict_lookup (dict_set d k v) k = Some v.
Proof.
  induction d as [|[k' v'] d IH]; simpl.
  - rewrite String.eqb_refl. reflexivity.
  - destruct (String.eqb_spec k' k) as [->|Hne]; simpl.
    + rewrite String.eqb_refl. reflexivity.
    + destruct (String.eqb_spec k' k); [contradiction|exact IH].
Qed.

(** [d[k] = v] leaves the other keys as they were. *)
Lemma dict_lookup_set_other {V : Type} (d : Dict V) (k k' : string) (v : V) :
  k <> k' -> dict_lookup (dict_set d k v) k' = dict_lookup d k'.
Proof.
  intros Hne. induction d as [|[k0 v0] d IH]; simpl.
  - destruct (String.eqb_spec k k'); [contradiction|reflexivity].
  - destruct (String.eqb_spec k0 k) as [->|Hne0]; simpl.
    + destruct (String.eqb_spec k k'); [contradiction|reflexivity].
    + rewrite IH. reflexivity.
Qed.

(** ** The factory *)

Section FactoryFacts.
Variables Config Instance : Type.

#[local] Abbreviation registry_t := (Registry Config Instance).

(** The factory looks the lower-cased name up and hands the constructor's
    outcome on. *)
Lemma create_connector_cases (reg : registry_t) (platform : string)
    (config : Config) :
  (dict_lookup reg (lower platform) = None ->
   create_connector platform config reg
   = (reg, inl (unsupported (lower platform) reg)))
  /\ (forall c,
        dict_lookup reg (lower platform) = Some c ->
        (forall x, instantiate c config = inr x ->
                   create_connector platform config reg = (reg, inr x))
        /\ (forall e, instantiate c config = inl e ->
                      create_connector platform config reg = (reg, inl e))).
Proof.
  unfold create_connector, dict_mem. unfold_py.
  split.
  - intros ->. reflexivity.
  - intros c ->. simpl. split; intros ? ->; reflexivity.
Qed.

Lemma instantiate_class (c : Class Config Instance) (config : Config)
    (x : Connector Config Instance) :
  instantiate c config = inr x -> connector_class x = c.
Proof.
  unfold instantiate. destruct (cls_init c config); [discriminate|].
  intros H. injection H as <-. reflexivity.
Qed.



(** C10: [get_platform_config_schema] returns a non-empty schema for
    the names whose lower-casing is [mt5] or [mt4] and the empty one for
    every other name, whatever the registry holds: a name registered at
    run time is supported and still has the schema it had before. *)
Theorem schema_table_is_fixed (reg : registry_t) (platform : string) :
  exists d,
    get_platform_config_schema platform reg = (reg, inr d)
    /\ (lower platform = "mt5" \/ lower platform = "mt4" -> d <> [])
    /\ (lower platform <> "mt5" -> lower platform <> "mt4" -> d = [])
    /\ (forall c reg',
          register_connector platform c reg = (reg', inr tt) ->
          is_platform_supported platform reg' = (reg', inr true)
          /\ get_platform_config_schema platform reg' = (reg', inr d)).
Proof.
  unfold get_platform_config_schema. unfold_py.
  eexists. split; [reflexivity|].
  split; [|split].
  - intros [-> | ->]; discriminate.
  - intros H5 H4. unfold dict_get, schemas. cbn [dict_lookup].
    destruct (String.eqb_spec "mt5" (lower platform)) as [E|_];
      [symmetry in E; contradiction|].
    destruct (String.eqb_spec "mt4" (lower platform)) as [E|_];
      [symmetry in E; contradiction|].
    reflexivity.
  - intros c reg'. unfold register_connector, is_platform_supported.
    unfold_py. destruct (cls_is_connector c); simpl; [|discriminate].
    intros H. injection H as <-. split; [|reflexivity].
    unfold dict_mem. rewrite dict_lookup_set_same. reflexivity.
Qed.

End FactoryFacts.

(** The out-of-the-box registry: an unknown name, a known one in upper
    case, a class whose constructor fails, and a registration. *)
Example create_unknown :
  outcome (create_connector "XYZ" [] registry)
  = inl (Exc ValueError
           "Unsupported trading platform: xyz. Supported platforms: mt5, mt4").
Proof. reflexivity. Qed.

Example create_MT5 :
  outcome (create_connector "MT5" [] registry)
  = inr {| connector_class := MT5Connector_cls;
           connector_state := Self [] false None [] None 0 |}.
Proof. reflexivity. Qed.

Example create_mt4_without_library :
  outcome (create_connector "mt4" [] registry)
  = inl (Exc MT4Error "MetaTrader4 library not available").
Proof. reflexivity. Qed.

Example create_mt4_with_library :
  outcome (create_connector "Mt4" [("bridge_port", VInt 7790)]
             registry_with_library)
  = inr {| connector_class := MT4Connector_class (inr healthy) 0;
           connector_state :=
             Self [("bridge_port", VInt 7790)] false None
                  [(INFO, "MT4 library loaded successfully")]
                  (Some healthy) 0 |}.
Proof. reflexivity. Qed.

Example register_then_create :
  let reg := final (register_connector "cTrader" CTraderConnector_cls registry) in
  dict_keys reg = ["mt5"; "mt4"; "ctrader"]
  /\ outcome (create_connector "CTRADER" [] reg)
     = inr {| connector_class := CTraderConnector_cls;
              connector_state := Self [] false None [] None 0 |}
  /\ outcome (get_platform_config_schema "cTrader" reg) = inr [].
Proof. vm_compute. repeat split. Qed.

Example register_plain_rejected :
  register_connector "plain" Plain_cls registry
  = (registry,
     inl (Exc ValueError "Connector class must inherit from BaseConnector")).
Proof. reflexivity. Qed.

(** ** More on the decorator and the queries *)

(** X1 on a terminal that answers. *)
Lemma passed_check_runs_once_witness :
  auto_reconnect_mt4 is_connected connect log "list_symbols" list_symbols
    (up healthy)
  = (up healthy, inr (Some []))
  /\ calls EvFunc
       (trace_of is_connected connect log "list_symbols" list_symbols
          (up healthy)) = 1.
Proof.
  destruct (passed_check_runs_once is_connected connect log "list_symbols"
              list_symbols (up healthy) (up healthy) (up healthy) (Some []))
    as (H1 & _ & H3); try reflexivity.
  split; [exact H1 | exact H3].
Defined.

(** X2 on a terminal that has lost its session for good. *)
Lemma failed_reconnect_wraps_failure_witness :
  outcome (auto_reconnect_mt4 is_connected connect log "list_symbols"
             list_symbols (up lost))
  = inl (Exc ConnectionError
           "MT4 reconnection failed during list_symbols: Connection reset by peer")
  /\ calls EvFunc
       (trace_of is_connected connect log "list_symbols" list_symbols
          (up lost)) = 1.
Proof.
  pose (s3 := final (is_connected (up lost))).
  pose (s4 := final (connect (log WARNING (msg_lost "list_symbols") s3))).
  destruct (failed_reconnect_wraps_failure is_connected connect log
              "list_symbols" list_symbols (up lost) (up lost) (up lost) s3 s4
              (Exc (OtherException "OSError") "Connection reset by peer") true)
    as (H1 & _ & H3); try reflexivity.
  split; [rewrite H1; reflexivity | exact H3].
Defined.

(** X4 on the body of [get_account_info]. *)
Lemma absorbing_func_never_retried_witness :
  calls EvFunc
    (trace_of is_connected connect log "get_account_info"
       get_account_info_body (up healthy)) <= 1.
Proof.
  exact (proj1 (absorbing_func_never_retried is_connected connect log
                  "get_account_info" get_account_info_body (up healthy)
                  (@get_account_info_body_never_raises nat))).
Defined.

(** ** Relations every run keeps *)

Section Frame.
Context {D : Type}.
Variable fromtimestamp : Value -> exn + Value.
Variable R : MT4Connector D -> MT4Connector D -> Prop.

Hypothesis R_refl : forall s, R s s.
Hypothesis R_trans : forall s1 s2 s3, R s1 s2 -> R s2 s3 -> R s1 s3.
Hypothesis R_log : forall lvl msg s, R s (log lvl msg s).
Hypothesis R_flag : forall b s, R s (set_connected b s).
Hypothesis R_terminal : forall d s, R s (set_terminal d s).

#[local] Abbreviation self := (MT4Connector D).

Lemma respects_ret {A : Type} (a : A) : respects R (@ret self A a).
Proof. intros s. apply R_refl. Qed.

Lemma respects_raise {A : Type} (e : exn) : respects R (@raise self A e).
Proof. intros s. apply R_refl. Qed.

Lemma respects_get : respects R (@get self).
Proof. intros s. apply R_refl. Qed.

Lemma respects_getattr (o : Obj) (name : string) :
  respects R (@getattr self o name).
Proof. intros s. apply R_refl. Qed.

Lemma respects_modify (f : self -> self) :
  (forall s, R s (f s)) -> respects R (modify f).
Proof. intros Hf s. apply Hf. Qed.

Lemma respects_call {A : Type} (f : Py D A) : respects R (call f).
Proof.
  intros s. unfold call, final. destruct (f (terminal s)) as [d r]. simpl.
  apply R_terminal.
Qed.

Lemma respects_bind {A B : Type} (m : Py self A) (k : A -> Py self B) :
  respects R m -> (forall a, respects R (k a)) -> respects R (bind m k).
Proof.
  intros Hm Hk s. specialize (Hm s). unfold bind, final in *.
  destruct (m s) as [s1 [e|a]]; simpl in *; [exact Hm|].
  eapply R_trans; [exact Hm | apply Hk].
Qed.

Lemma respects_try {A : Type} (m : Py self A) (h : exn -> Py self A) :
  respects R m -> (forall e, respects R (h e)) -> respects R (try_except m h).
Proof.
  intros Hm Hh s. specialize (Hm s). unfold try_except, final in *.
  destruct (m s) as [s1 [e|a]]; simpl in *; [|exact Hm].
  eapply R_trans; [exact Hm | apply Hh].
Qed.

Lemma respects_for_each {A B : Type} (f : A -> Py self B) (l : list A) :
  (forall x, respects R (f x)) -> respects R (for_each f l).
Proof.
  intros Hf. induction l as [|x l IH]; simpl.
  - apply respects_ret.
  - apply respects_bind; [apply Hf|]. intros y.
    apply respects_bind; [exact IH|]. intros ys. apply respects_ret.
Qed.

(** One step through a computation built from the pieces above. *)
Ltac frame_step :=
  first
    [ assumption
    | apply respects_ret
    | apply respects_raise
    | apply respects_get
    | apply respects_getattr
    | apply respects_call
    | apply respects_modify; intros ?;
      first [apply R_log | apply R_flag | apply R_terminal | assumption]
    | apply respects_bind; [|intros ?]
    | apply respects_try; [|intros ?]
    | apply respects_for_each; intros ?
    | match goal with
      | |- respects _ (match ?x with _ => _ end) => destruct x
      end ].

Ltac frame := cbv zeta; repeat frame_step.

Lemma respects_is_connected : respects R (@is_connected D).
Proof. unfold is_connected. frame. Qed.

Lemma respects_disconnect : respects R (@disconnect D).
Proof. unfold disconnect, log_error_with_context. frame. Qed.

Lemma respects_get_account_info_body : respects R (@get_account_info_body D).
Proof.
  pose proof respects_is_connected.
  unfold get_account_info_body, lib_call, fields, log_error_with_context.
  frame.
Qed.

Lemma respects_get_symbol_info_body (symbol : string) :
  respects R (@get_symbol_info_body D symbol).
Proof.
  pose proof respects_is_connected.
  unfold get_symbol_info_body, lib_call, fields, log_error_with_context.
  frame.
Qed.

Lemma respects_get_positions_body (symbol : option string) :
  respects R (@get_positions_body D symbol).
Proof.
  pose proof respects_is_connected.
  unfold get_positions_body, position_dict, lib_call, fields,
    log_error_with_context.
  frame.
Qed.

Lemma respects_get_orders_body (symbol : option string) :
  respects R (@get_orders_body D symbol).
Proof.
  pose proof respects_is_connected.
  unfold get_orders_body, lib_call, fields, log_error_with_context.
  frame.
Qed.

Lemma respects_get_server_time_body :
  respects R (@get_server_time_body D fromtimestamp).
Proof.
  pose proof respects_is_connected.
  unfold get_server_time_body, lib_call, log_error_with_context.
  frame.
Qed.

Lemma respects_check_symbol_availability_body (symbol : string) :
  respects R (@check_symbol_availability_body D symbol).
Proof.
  pose proof respects_is_connected.
  unfold check_symbol_availability_body, lib_call, log_error_with_context.
  frame.
Qed.

Lemma respects_without_connect : kept_without_connect fromtimestamp R.
Proof.
  unfold kept_without_connect.
  split; [apply respects_disconnect|].
  split; [apply respects_is_connected|].
  split; [apply respects_get_account_info_body|].
  split; [apply respects_get_symbol_info_body|].
  split; [apply respects_get_positions_body|].
  split; [apply respects_get_orders_body|].
  split; [apply respects_get_server_time_body|].
  apply respects_check_symbol_availability_body.
Qed.

(** What also holds for [connect] and the decorated methods when writing
    the cached account record keeps [R]. *)
Hypothesis R_cache : forall a s, R s (set_account_info a s).

Lemma respects_connect : respects R (@connect D).
Proof.
  unfold connect, log_error_with_context. cbv zeta.
  repeat first [ apply respects_modify; intros ?; apply R_cache | frame_step ].
Qed.

Lemma respects_decorated {A : Type} (name : string) (body : Py self A) :
  respects R body -> respects R (decorated name body).
Proof.
  intros Hbody.
  pose proof respects_is_connected. pose proof respects_connect.
  unfold decorated, auto_reconnect_mt4, pre_check, on_exception.
  frame.
Qed.

Lemma respects_validate_connection : respects R (@validate_connection D).
Proof.
  pose proof (respects_decorated "get_account_info" _
                respects_get_account_info_body) as Hd.
  unfold validate_connection. fold (@get_account_info D) in Hd.
  frame.
Qed.

Lemma respects_every_operation : kept_by_every_operation fromtimestamp R.
Proof.
  unfold kept_by_every_operation.
  split; [apply respects_connect|].
  split; [apply respects_disconnect|].
  split; [apply respects_is_connected|].
  split; [apply respects_validate_connection|].
  split; [apply respects_decorated, respects_get_account_info_body|].
  split; [intros; apply respects_decorated, respects_get_symbol_info_body|].
  split; [intros; apply respects_decorated, respects_get_positions_body|].
  split; [intros; apply respects_decorated, respects_get_orders_body|].
  split; [apply respects_decorated, respects_get_server_time_body|].
  intros; apply respects_decorated, respects_check_symbol_availability_body.
Qed.

End Frame.

Section FrameInstances.
Context {D : Type}.
Variable fromtimestamp : Value -> exn + Value.

#[local] Abbreviation self := (MT4Connector D).

Lemma same_setup_refl (s : self) : same_setup s s.
Proof. split; reflexivity. Qed.

Lemma same_setup_trans (s1 s2 s3 : self) :
  same_setup s1 s2 -> same_setup s2 s3 -> same_setup s1 s3.
Proof. intros [H1 H2] [H3 H4]. split; congruence. Qed.

Lemma log_extends_refl (s : self) : log_extends s s.
Proof. exists []. symmetry. apply app_nil_r. Qed.

Lemma log_extends_trans (s1 s2 s3 : self) :
  log_extends s1 s2 -> log_extends s2 s3 -> log_extends s1 s3.
Proof.
  intros [m1 H1] [m2 H2]. exists (m1 ++ m2)%list.
  rewrite H2, H1, app_assoc. reflexivity.
Qed.

Lemma log_extends_log (lvl : Level) (msg : string) (s : self) :
  log_extends s (log lvl msg s).
Proof. exists [(lvl, msg)]. reflexivity. Qed.

Lemma same_cache_trans (s1 s2 s3 : self) :
  same_cache s1 s2 -> same_cache s2 s3 -> same_cache s1 s3.
Proof. unfold same_cache. congruence. Qed.

(** X5: no operation of the connector changes the configuration it was
    built with, or the library it bound at construction. *)
Theorem setup_never_changes : kept_by_every_operation fromtimestamp (@same_setup D).
Proof.
  apply respects_every_operation;
    first [ exact same_setup_refl | exact same_setup_trans
          | intros; split; reflexivity ].
Qed.

(** X6: every operation of the connector only adds records at the end of
    the log; none removes or rewrites a record. *)
Theorem log_only_grows : kept_by_every_operation fromtimestamp (@log_extends D).
Proof.
  apply respects_every_operation;
    first [ exact log_extends_refl | exact log_extends_trans
          | exact log_extends_log
          | intros; exists []; simpl; symmetry; apply app_nil_r ].
Qed.

(** X7: the cached account record is written by [connect] alone:
    [disconnect], [is_connected] and the bodies of the six queries leave it
    as it was, so a record cached by [connect] survives a disconnect. *)
Theorem cache_written_by_connect_only :
  kept_without_connect fromtimestamp (@same_cache D).
Proof.
  apply respects_without_connect;
    first [ exact same_cache_trans | intros; reflexivity ].
Qed.

End FrameInstances.

(** ** The results of the queries *)

(** A loop that returned gave one result for each element, in order. *)
Lemma for_each_inv {S A B : Type} (f : A -> Py S B) (l : list A) :
  forall s s' r,
    for_each f l s = (s', inr r) ->
    Forall2 (fun x y => exists s1 s2, f x s1 = (s2, inr y)) l r.
Proof.
  induction l as [|x l IH]; intros s s' r H; simpl in H.
  - unfold ret in H. injection H as _ <-. constructor.
  - unfold bind in H.
    destruct (f x s) as [s1 [e|y]] eqn:Ex; [discriminate|].
    destruct (for_each f l s1) as [s2 [e|ys]] eqn:El; [discriminate|].
    unfold ret in H. injection H as _ <-.
    constructor; [exists s, s1; exact Ex | eapply IH; exact El].
Qed.

Section Queries.
Context {D : Type}.
Variable fromtimestamp : Value -> exn + Value.

#[local] Abbreviation self := (MT4Connector D).

(** The dictionary [fields] returns holds the listed attributes under the
    listed keys. *)
Lemma fields_inv (o : Obj) (names : list (string * string)) (s s' : self)
    (d : Dict Value) :
  fields o names s = (s', inr d) -> copied_from o names d.
Proof.
  intros H. apply for_each_inv in H. unfold copied_from.
  induction H as [|kn kv names d (s1 & s2 & Hx) _ IH]; constructor; [|exact IH].
  unfold bind, getattr, ret in Hx.
  destruct (o (snd kn)) as [e|v] eqn:Ho; [discriminate|].
  injection Hx as _ <-. simpl. split; reflexivity.
Qed.

Lemma copied_from_keys (o : Obj) (names : list (string * string))
    (d : Dict Value) :
  copied_from o names d -> dict_keys d = map fst names.
Proof.
  intros H. induction H as [|kn kv names d [Hk _] _ IH]; simpl;
    [reflexivity|].
  rewrite Hk. f_equal. exact IH.
Qed.

Lemma same_fields_keys (names : list string) : map fst (same names) = names.
Proof.
  unfold same. rewrite map_map. simpl. apply map_id.
Qed.

(** Case analysis, in a hypothesis, on a scrutinee that has no case
    analysis inside. *)
Ltac break_in H :=
  match type of H with
  | context [match ?x with _ => _ end] =>
      lazymatch x with
      | context [match _ with _ => _ end] => fail
      | _ => let E := fresh "E" in
             destruct x eqn:E; cbv beta iota delta [negb] in H;
             try discriminate H
      end
  end.

(** A run that returned, taken apart call by call. *)
Ltac invert_run H :=
  unfold lib_call, call in H; unfold bind, raise, ret, get in H;
  cbv beta iota in H; repeat break_in H.


Lemma copied_same_In (o : Obj) (names : list string) (d : Dict Value) :
  copied_from o (same names) d -> forall k v, In (k, v) d -> o k = inr v.
Proof.
  unfold copied_from, same. intros H.
  remember (map (fun n => (n, n)) names) as pairs eqn:Hp.
  revert names Hp.
  induction H as [|kn kv pairs d [Hk Hv] _ IH]; intros names Hp k v Hin.
  - destruct Hin.
  - destruct names as [|n names]; [discriminate|].
    simpl in Hp. injection Hp as -> ->. simpl in *.
    destruct Hin as [->|Hin]; [simpl in *; subst; exact Hv|].
    eapply IH; [reflexivity | exact Hin].
Qed.


(** What [position_dict] returns for a record. *)
Lemma position_dict_inv (pos : Obj) (s s' : self) (d : Dict Value) :
  position_dict pos s = (s', inr d) -> position_of pos d.
Proof.
  intros H. unfold position_dict, getattr in H.
  unfold bind, ret in H. cbv beta iota in H. repeat break_in H.
  all: injection H as _ <-.
  all: match goal with
       | H : fields _ _ _ = _ |- _ => apply fields_inv in H; rename H into Hrest
       end.
  all: unfold position_of; split; [|split].
  all: try (unfold dict_keys; simpl; apply copied_from_keys in Hrest;
            unfold dict_keys in Hrest;
            rewrite Hrest, same_fields_keys; reflexivity).
  all: try (eexists; split; [eassumption|];
            match goal with
            | H : eq_zero _ = _ |- _ => rewrite H
            end; reflexivity).
  all: intros k' v' Hin Hne; simpl in Hin;
    destruct Hin as [Hin|[Hin|[Hin|[Hin|Hin]]]];
    [ injection Hin as <- <-; assumption
    | injection Hin as <- <-; assumption
    | injection Hin as <- <-; assumption
    | injection Hin as <- _; contradiction Hne; reflexivity
    | exact (copied_same_In _ _ _ Hrest k' v' Hin) ].
Qed.





End Queries.

(** ** How the operations of the connector compose *)

Section ConnectorMore.
Context {D : Type}.

#[local] Abbreviation self := (MT4Connector D).

Lemma connect_keeps_setup (s : self) : same_setup s (final (connect s)).
Proof.
  apply (@respects_connect D same_setup);
    first [ exact same_setup_refl | exact same_setup_trans
          | intros; split; reflexivity ].
Qed.

(** X14: after a [connect] that returned true, [is_connected] returns
    true as long as the driver's account query still gives a record, and
    it leaves the flag set. *)
Theorem connect_then_is_connected (s s' : self) (l : MetaTrader4.lib D)
    (d : D) (o : Obj) :
  connect s = (s', inr true) ->
  mt4_lib s = Some l ->
  MetaTrader4.account_info l (terminal s') = (d, inr (Some o)) ->
  is_connected s' = (set_terminal d s', inr true)
  /\ connected (set_terminal d s') = true.
Proof.
  intros Hc Hl Hq.
  destruct (connect_cases s) as (s1 & b & E & Hflag & _).
  rewrite Hc in E. injection E as <- <-.
  destruct (connect_keeps_setup s) as [_ Hlib].
  rewrite Hc in Hlib. simpl in Hlib. rewrite Hl in Hlib.
  unfold is_connected, call. unfold_py.
  rewrite Hflag, Hlib, Hq. simpl. split; [reflexivity | exact Hflag].
Qed.

(** X15: what [connect] does to the cached account record.  When
    [initialize] raises or answers false the cache is left as it was.  When
    [initialize] answers true, the cache becomes whatever the account query
    returned, also [None], whether [connect] then returns true or false. *)
Theorem connect_cache_effect (s : self) (l : MetaTrader4.lib D) :
  mt4_lib s = Some l ->
  (forall d r,
     MetaTrader4.initialize l (path_arg s) (port_arg s) (terminal s) = (d, r) ->
     r <> inr true ->
     account_info (final (connect s)) = account_info s)
  /\ (forall d1 d2 a,
        MetaTrader4.initialize l (path_arg s) (port_arg s) (terminal s)
        = (d1, inr true) ->
        MetaTrader4.account_info l d1 = (d2, inr a) ->
        account_info (final (connect s)) = a)
  /\ (forall d1 d2 e,
        MetaTrader4.initialize l (path_arg s) (port_arg s) (terminal s)
        = (d1, inr true) ->
        MetaTrader4.account_info l d1 = (d2, inl e) ->
        account_info (final (connect s)) = account_info s).
Proof.
  intros Hl. destruct s as [cfg c a0 lg ml t]. simpl in Hl. subst ml.
  unfold connect, path_arg, port_arg, call, log_error_with_context.
  unfold_py. unfold log, set_terminal, set_connected, set_account_info.
  cbn [terminal config connected account_info logger mt4_lib].
  split; [|split].
  - intros d r Hi Hr.
    destruct (truthy (dict_get cfg "terminal_path" (VStr "")));
      simpl; rewrite Hi; simpl;
      destruct r as [e|[|]]; simpl; try reflexivity;
      contradiction Hr; reflexivity.
  - intros d1 d2 a Hi Ha.
    destruct (truthy (dict_get cfg "terminal_path" (VStr "")));
      simpl; rewrite Hi; simpl; rewrite Ha; simpl;
      (destruct a as [o|]; simpl; [|reflexivity]);
      repeat break_inner; reflexivity.
  - intros d1 d2 e Hi Ha.
    destruct (truthy (dict_get cfg "terminal_path" (VStr "")));
      simpl; rewrite Hi; simpl; rewrite Ha; reflexivity.
Qed.

(** X16: the constructor succeeds exactly when [import MetaTrader4]
    does.  The new connector holds the configuration as given and the
    imported library, is not connected, has no cached account, and its
    [is_connected] is false without a call to the driver.  Whatever the
    import raises, the constructor raises the connector's own [MT4Error]. *)
Theorem constructor_outcome (import : exn + MetaTrader4.lib D) (world : D)
    (cfg : Dict Value) :
  match import with
  | inr l =>
      exists s,
        __init__ import world cfg = inr s
        /\ config s = cfg /\ mt4_lib s = Some l /\ terminal s = world
        /\ connected s = false /\ account_info s = None
        /\ is_connected s = (s, inr false)
  | inl e =>
      exists msg, __init__ import world cfg = inl (Exc MT4Error msg)
  end.
Proof.
  destruct import as [e|l].
  - unfold __init__, _initialize_mt4_library.
    destruct (exc_class e); eexists; reflexivity.
  - eexists. repeat split.
Qed.

(** [fields] reads attributes only: the state stays as it is. *)
Lemma fields_state (o : Obj) (names : list (string * string)) (s : self) :
  fst (fields o names s) = s.
Proof.
  unfold fields. induction names as [|kn names IH]; simpl; [reflexivity|].
  unfold bind, getattr, ret in *. destruct (o (snd kn)); simpl; [reflexivity|].
  destruct (for_each _ names s) as [s1 [e|ys]]; simpl in *; exact IH.
Qed.

(** When the body of [get_account_info] returns a dictionary, the live
    check inside it succeeded and the flag is set. *)
Lemma account_body_some_connected (s s' : self) (d : Dict Value) :
  get_account_info_body s = (s', inr (Some d)) -> connected s' = true.
Proof.
  intros E. unfold get_account_info_body, try_except in E.
  match type of E with
  | context [match ?m s with _ => _ end] =>
      destruct (m s) as [s1 [e|r1]] eqn:Ein
  end.
  - unfold log_error_with_context in E. unfold_py. discriminate E.
  - injection E as -> ->.
    unfold lib_call, call in Ein. unfold bind, raise, ret, get in Ein.
    cbv beta iota in Ein.
    destruct (is_connected_cases s) as (m & b & Ec & Htrue & _).
    rewrite Ec in Ein. destruct b; [|discriminate Ein].
    destruct (Htrue eq_refl) as [Hflag _].
    cbv beta iota delta [negb] in Ein.
    destruct (mt4_lib m) as [l|]; [|discriminate Ein].
    destruct (MetaTrader4.account_info l (terminal m)) as [d0 [e|[o|]]];
      try discriminate Ein.
    pose proof (fields_state o account_fields (set_terminal d0 m)) as Hst.
    unfold account_fields in Hst.
    match type of Ein with
    | context [match ?x with _ => _ end] => destruct x as [s2 [e|dd]]
    end; [discriminate Ein|].
    injection Ein as <- _. simpl in Hst. subst s2. exact Hflag.
Qed.

(** A decorated call that returns a value returns what some run of the
    body returned, in the state that run left. *)
Lemma decorated_returns_from_body {A : Type} (name : string)
    (body : Py self A) (s s' : self) (a : A) :
  decorated name body s = (s', inr a) -> exists s0, body s0 = (s', inr a).
Proof.
  intros E.
  unfold decorated, auto_reconnect_mt4, pre_check, on_exception in E.
  unfold try_except, bind, raise, ret, modify in E. cbv beta iota in E.
  destruct (is_connected_never_raises s) as (s1 & c & E1).
  rewrite E1 in E. destruct c; cbv beta iota delta [negb] in E.
  - destruct (body s1) as [s2 [e|a1]] eqn:Eb.
    + destruct (is_connected_never_raises s2) as (s3 & c & E3).
      rewrite E3 in E.
      destruct (connection_related c e); [|discriminate E].
      destruct (connect_never_raises (log WARNING (msg_lost name) s3))
        as (s4 & ok & E4).
      rewrite E4 in E. destruct ok; [|discriminate E].
      eexists. exact E.
    + injection E as <- <-. eexists. exact Eb.
  - destruct (connect_never_raises (log WARNING (msg_before name) s1))
      as (s2 & ok & E2).
    rewrite E2 in E. destruct ok; cbv beta iota delta [negb] in E.
    + destruct (body s2) as [s3 [e|a1]] eqn:Eb.
      * destruct (is_connected_never_raises s3) as (s4 & c & E4).
        rewrite E4 in E.
        destruct (connection_related c e); [|discriminate E].
        destruct (connect_never_raises (log WARNING (msg_lost name) s4))
          as (s5 & ok & E5).
        rewrite E5 in E. destruct ok; [|discriminate E].
        eexists. exact E.
      * injection E as <- <-. eexists. exact Eb.
    + destruct (is_connected_never_raises s2) as (s3 & c & E3).
      rewrite E3 in E.
      destruct (connection_related c (err_before name)); [|discriminate E].
      destruct (connect_never_raises (log WARNING (msg_lost name) s3))
        as (s4 & ok & E4).
      rewrite E4 in E. destruct ok; [|discriminate E].
      eexists. exact E.
Qed.

(** X17: [validate_connection] returns in every state.  On a connector
    whose flag is clear it returns false and changes nothing.  It returns
    true only when [get_account_info] returned a dictionary, and the flag
    is then set.  When [get_account_info] raises, the error is absorbed,
    the result is false and the flag is cleared; when it returns [None],
    the result is false and the flag is left as [get_account_info] left
    it. *)
Theorem validate_connection_outcome (s : self) :
  exists s' b,
    validate_connection s = (s', inr b)
    /\ (connected s = false -> b = false /\ s' = s)
    /\ (b = true ->
        connected s = true /\ connected s' = true
        /\ exists d, get_account_info s = (s', inr (Some d)))
    /\ (forall s1 e,
          connected s = true -> get_account_info s = (s1, inl e) ->
          b = false /\ s' = set_connected false s1)
    /\ (forall s1,
          connected s = true -> get_account_info s = (s1, inr None) ->
          b = false /\ s' = s1).
Proof.
  unfold validate_connection. unfold_py.
  destruct (connected s) eqn:Hc; simpl.
  - destruct (get_account_info s) as [s1 [e|[d|]]] eqn:Eg; simpl;
      do 2 eexists; (split; [reflexivity|]);
      (split; [intros Hf; discriminate Hf|]);
      (split; [intros Hb; try discriminate Hb|]).
    + split; intros; discriminate || (split; congruence).
    + split; [reflexivity|]. split; [|exists d; reflexivity].
      destruct (decorated_returns_from_body _ _ _ _ _ Eg) as [s0 Hb0].
      exact (account_body_some_connected _ _ _ Hb0).
    + split; intros; discriminate.
    + split; intros; discriminate || (split; congruence).
  - do 2 eexists. split; [reflexivity|].
    split; [intros _; split; reflexivity|].
    split; [intros Hb; discriminate Hb|].
    split; intros; discriminate.
Qed.

End ConnectorMore.

(** X14 on a terminal that answers. *)
Lemma connect_then_is_connected_witness :
  outcome (is_connected (final (connect (fresh healthy)))) = inr true
  /\ connected (final (is_connected (final (connect (fresh healthy))))) = true.
Proof.
  pose (s' := final (connect (fresh healthy))).
  destruct (connect_then_is_connected (fresh healthy) s' healthy 0 account)
    as [H1 H2]; try reflexivity.
  unfold s' in H1. split; [rewrite H1; reflexivity | rewrite H1; exact H2].
Defined.

(** X15 on a terminal whose account query gives [None]: the record cached
    before is gone after the failed [connect]. *)
Lemma connect_cache_effect_witness :
  account_info (up logged_out) = Some account
  /\ outcome (connect (up logged_out)) = inr false
  /\ account_info (final (connect (up logged_out))) = None.
Proof.
  destruct (connect_cache_effect (up logged_out) logged_out eq_refl)
    as (_ & Hq & _).
  split; [reflexivity|]. split; [reflexivity|].
  apply (Hq 0 1 None); reflexivity.
Defined.

(** ** More on the registry of the factory *)

Lemma dict_keys_set_existing {V : Type} (d : Dict V) (k : string) (v : V) :
  In k (dict_keys d) -> dict_keys (dict_set d k v) = dict_keys d.
Proof.
  induction d as [|[k' v'] d IH]; simpl; [intros []|].
  destruct (String.eqb_spec k' k) as [->|Hne]; [reflexivity|].
  intros [H|H]; [contradiction|]. simpl. f_equal. exact (IH H).
Qed.

Lemma dict_keys_set_new {V : Type} (d : Dict V) (k : string) (v : V) :
  ~ In k (dict_keys d) -> dict_keys (dict_set d k v) = (dict_keys d ++ [k])%list.
Proof.
  induction d as [|[k' v'] d IH]; simpl; [reflexivity|].
  intros Hn. destruct (String.eqb_spec k' k) as [->|Hne].
  - contradiction Hn. left. reflexivity.
  - simpl. f_equal. apply IH. intros H. apply Hn. right. exact H.
Qed.

(** Writing a key twice is writing it once with the last value. *)
Lemma dict_set_set {V : Type} (d : Dict V) (k : string) (v1 v2 : V) :
  dict_set (dict_set d k v1) k v2 = dict_set d k v2.
Proof.
  induction d as [|[k' v'] d IH]; simpl.
  - rewrite String.eqb_refl. reflexivity.
  - destruct (String.eqb_spec k' k) as [->|Hne]; simpl.
    + rewrite String.eqb_refl. reflexivity.
    + destruct (String.eqb_spec k' k); [contradiction|]. rewrite IH. reflexivity.
Qed.

Lemma lower_upper_ascii (c : ascii) : lower_ascii (upper_ascii c) = lower_ascii c.
Proof. destruct c as [[] [] [] [] [] [] [] []]; reflexivity. Qed.

Lemma lower_upper (s : string) : lower (upper s) = lower s.
Proof.
  induction s as [|c s IH]; simpl; [reflexivity|].
  rewrite lower_upper_ascii, IH. reflexivity.
Qed.

Section FactoryMore.
Variables Config Instance : Type.

#[local] Abbreviation registry_t := (Registry Config Instance).

Lemma register_ok_inv (reg reg' : registry_t) (platform : string)
    (c : Class Config Instance) :
  register_connector platform c reg = (reg', inr tt) ->
  cls_is_connector c = true /\ reg' = dict_set reg (lower platform) c.
Proof.
  unfold register_connector. unfold_py.
  destruct (cls_is_connector c); simpl; [|discriminate].
  intros H. injection H as <-. split; reflexivity.
Qed.

(** X18: a registration that succeeds keeps the registry free of
    duplicate names.  A name already registered keeps its place in the
    list of supported platforms; a new name is added at the end. *)
Theorem register_keeps_names_unique (reg reg' : registry_t)
    (platform : string) (c : Class Config Instance) :
  register_connector platform c reg = (reg', inr tt) ->
  NoDup (dict_keys reg) ->
  NoDup (dict_keys reg')
  /\ (In (lower platform) (dict_keys reg) -> dict_keys reg' = dict_keys reg)
  /\ (~ In (lower platform) (dict_keys reg) ->
      dict_keys reg' = (dict_keys reg ++ [lower platform])%list).
Proof.
  intros Hr Hnd. apply register_ok_inv in Hr. destruct Hr as [_ ->].
  split; [|split].
  - destruct (in_dec string_dec (lower platform) (dict_keys reg)) as [Hin|Hn].
    + rewrite dict_keys_set_existing by exact Hin. exact Hnd.
    + rewrite dict_keys_set_new by exact Hn.
      apply NoDup_app; [exact Hnd | repeat constructor; intros [] |].
      intros k Hk [<-|[]]. exact (Hn Hk).
  - apply dict_keys_set_existing.
  - apply dict_keys_set_new.
Qed.

(** X19: a registration leaves every other platform as it was: the class
    registered under another name is the same, a connector for it is
    created as before, and it is supported exactly if it was. *)
Theorem register_leaves_others (reg reg' : registry_t) (platform other : string)
    (c : Class Config Instance) (config : Config) :
  register_connector platform c reg = (reg', inr tt) ->
  lower other <> lower platform ->
  dict_lookup reg' (lower other) = dict_lookup reg (lower other)
  /\ outcome (is_platform_supported other reg')
     = outcome (is_platform_supported other reg)
  /\ (In (lower other) (dict_keys reg) ->
      outcome (create_connector other config reg')
      = outcome (create_connector other config reg)).
Proof.
  intros Hr Hne. apply register_ok_inv in Hr. destruct Hr as [_ ->].
  assert (Hl : dict_lookup (dict_set reg (lower platform) c) (lower other)
               = dict_lookup reg (lower other)).
  { apply dict_lookup_set_other. intros H. apply Hne. symmetry. exact H. }
  split; [exact Hl|]. split.
  - unfold is_platform_supported, dict_mem. unfold_py. simpl.
    rewrite Hl. reflexivity.
  - intros Hin. apply dict_lookup_In in Hin. destruct Hin as [co Hco].
    unfold create_connector, dict_mem. unfold_py.
    rewrite Hl, Hco. simpl. destruct (instantiate co config); reflexivity.
Qed.

(** X20: registering twice under one name, in any letter case, leaves the
    registry as registering the second class alone does: the last
    registration wins and the name is listed once. *)
Theorem last_registration_wins (reg : registry_t) (p1 p2 : string)
    (c1 c2 : Class Config Instance) :
  lower p1 = lower p2 ->
  cls_is_connector c1 = true ->
  cls_is_connector c2 = true ->
  register_connector p2 c2 (final (register_connector p1 c1 reg))
  = register_connector p2 c2 reg
  /\ dict_lookup (final (register_connector p2 c2 reg)) (lower p1) = Some c2.
Proof.
  intros Hp H1 H2. unfold register_connector. unfold_py.
  rewrite H1, H2. simpl. rewrite Hp, dict_set_set.
  split; [reflexivity | apply dict_lookup_set_same].
Qed.

(** X21: out of the box, with any two classes for [mt5] and [mt4], a
    platform is supported exactly when it has a configuration schema. *)
Theorem supported_iff_schema (MT5 MT4 : Class Config Instance)
    (platform : string) :
  outcome (is_platform_supported platform (_connectors MT5 MT4)) = inr true
  <-> exists d,
        outcome (get_platform_config_schema platform (_connectors MT5 MT4))
        = inr d
        /\ d <> [].
Proof.
  unfold is_platform_supported, get_platform_config_schema, dict_mem,
    dict_get, schemas, _connectors.
  unfold_py. cbn [dict_lookup snd].
  destruct (String.eqb_spec "mt5" (lower platform)) as [E5|N5].
  - split; [intros _; eexists; split; [reflexivity|discriminate] | reflexivity].
  - destruct (String.eqb_spec "mt4" (lower platform)) as [E4|N4].
    + split; [intros _; eexists; split; [reflexivity|discriminate] | reflexivity].
    + split; [discriminate|].
      intros (d & Hd & Hne). injection Hd as <-. contradiction Hne. reflexivity.
Qed.


End FactoryMore.

(** X18 on the registry out of the box: a new name goes last. *)
Lemma register_keeps_names_unique_witness :
  dict_keys (final (register_connector "cTrader" CTraderConnector_cls registry))
  = ["mt5"; "mt4"; "ctrader"]
  /\ NoDup (dict_keys (final (register_connector "cTrader" CTraderConnector_cls
                                registry))).
Proof.
  assert (Hnd : NoDup (dict_keys registry)).
  { repeat constructor; simpl; intuition discriminate. }
  destruct (register_keeps_names_unique _ _ registry
              (final (register_connector "cTrader" CTraderConnector_cls registry))
              "cTrader" CTraderConnector_cls eq_refl Hnd)
    as (H1 & _ & H3).
  split; [|exact H1].
  apply H3. simpl. intuition discriminate.
Defined.

(** X19 on the registry out of the box: [MT5] after registering [cTrader]. *)
Lemma register_leaves_others_witness :
  outcome (create_connector "MT5" []
             (final (register_connector "cTrader" CTraderConnector_cls registry)))
  = outcome (create_connector "MT5" [] registry).
Proof.
  destruct (register_leaves_others _ _ registry
              (final (register_connector "cTrader" CTraderConnector_cls registry))
              "cTrader" "MT5" CTraderConnector_cls [] eq_refl)
    as (_ & _ & H3).
  - simpl. discriminate.
  - apply H3. simpl. left. reflexivity.
Defined.

(** X20 on the registry out of the box: [MT4] replaced twice. *)
Lemma last_registration_wins_witness :
  dict_keys (final (register_connector "MT4" CTraderConnector_cls
                      (final (register_connector "mt4" MT5Connector_cls registry))))
  = ["mt5"; "mt4"]
  /\ dict_lookup
       (final (register_connector "MT4" CTraderConnector_cls registry)) "mt4"
     = Some CTraderConnector_cls.
Proof.
  destruct (last_registration_wins _ _ registry "mt4" "MT4"
              MT5Connector_cls CTraderConnector_cls eq_refl eq_refl eq_refl)
    as [H1 H2].
  split; [rewrite H1; reflexivity | exact H2].
Defined.

(** ** The name of the platform *)

Lemma no_C_head (c : ascii) (s : string) :
  contains "C" (String c s) = false ->
  c <> "C"%char /\ contains "C" s = false.
Proof.
  cbn [contains prefix]. destruct (ascii_dec "C" c) as [<-|Hne].
  - destruct s; discriminate.
  - intros H. split; [intros ->; apply Hne; reflexivity | exact H].
Qed.

(** X23: for a class named by a label without the letter [C] followed by
    [Connector], the platform name is the label in upper case. *)
Theorem platform_name_of_class (label : string) :
  contains "C" label = false ->
  get_platform_name (label ++ "Connector") = upper label.
Proof.
  unfold get_platform_name. induction label as [|c label IH]; intros H.
  - reflexivity.
  - apply no_C_head in H. destruct H as [Hc Hrest].
    change ((String c label ++ "Connector")%string)
      with (String c (label ++ "Connector")).
    cbn [remove_all prefix].
    destruct (ascii_dec "C" c) as [E|_]; [contradiction Hc; symmetry; exact E|].
    cbn [upper]. f_equal. apply IH. exact Hrest.
Qed.

(** X23 on the two classes of the repository. *)
Lemma platform_name_of_class_witness :
  get_platform_name "MT4Connector" = "MT4"
  /\ get_platform_name "MT5Connector" = "MT5".
Proof.
  split.
  - exact (platform_name_of_class "MT4" eq_refl).
  - exact (platform_name_of_class "MT5" eq_refl).
Defined.
